(** * DBS sentiment dashboard: the filtering and aggregation pipeline of app.py

    A shallow embedding of [load_data] and of the data path of [main]
    (src/app.py): the sample data frame, the sidebar filter, the metric
    cards, the two group-by tables, the top-3 selections and the CSV export.

    A pandas data frame is a list of rows in index order.  A [str] column
    holds Rocq strings (byte strings; the data set is ASCII), the [polarity]
    column holds exact rationals (the program only compares polarities and
    its literals are decimal), a calendar date is a (year, month, day)
    triple compared the way [datetime.date] compares.  The percentages of
    the metric cards are computed in exact rationals as well; [Binary64]
    repeats them in the floating-point arithmetic of the program.  An
    operation that can raise returns an [option]. *)

From Stdlib Require Import List String Ascii Bool Arith ZArith QArith Lia.
From Stdlib Require Import Permutation Sorted.
From Corelib Require PrimFloat.
Import ListNotations.

Open Scope string_scope.
Open Scope list_scope.
Open Scope nat_scope.

(* ------------------------------------------------------------------ *)
(** ** Orders given by a three-way comparison *)

(** The keys the program sorts by (dates, strings, pairs of them) are all
    compared through a [comparison]-valued function that is a strict total
    order. *)
Class CmpOrder {K : Type} (cmp : K -> K -> comparison) : Prop := {
  cmp_eq_iff : forall a b, cmp a b = Eq <-> a = b;
  cmp_antisym : forall a b, cmp b a = CompOpp (cmp a b);
  cmp_lt_trans : forall a b c, cmp a b = Lt -> cmp b c = Lt -> cmp a c = Lt
}.

(** Lexicographic comparison of a pair, first component first. *)
Definition lex_compare {A B : Type}
    (ca : A -> A -> comparison) (cb : B -> B -> comparison)
    (x y : A * B) : comparison :=
  match ca (fst x) (fst y) with
  | Eq => cb (snd x) (snd y)
  | c => c
  end.

(* ------------------------------------------------------------------ *)
(** ** Calendar dates *)

Module Date.

Record t : Type := mk { year : nat; month : nat; day : nat }.

(** [datetime.date] compares the (year, month, day) tuples. *)
Definition compare (a b : t) : comparison :=
  lex_compare Nat.compare (lex_compare Nat.compare Nat.compare)
    (year a, (month a, day a)) (year b, (month b, day b)).

Definition leb (a b : t) : bool :=
  match compare a b with Gt => false | _ => true end.

Definition le (a b : t) : Prop := compare a b <> Gt.

Definition is_leap (y : nat) : bool :=
  (y mod 4 =? 0) && (negb (y mod 100 =? 0) || (y mod 400 =? 0)).

Definition days_in_month (y m : nat) : nat :=
  match m with
  | 2 => if is_leap y then 29 else 28
  | 4 | 6 | 9 | 11 => 30
  | _ => 31
  end.

(** The day after [d]. *)
Definition next_day (d : t) : t :=
  if day d <? days_in_month (year d) (month d)
  then mk (year d) (month d) (S (day d))
  else if month d <? 12
       then mk (year d) (S (month d)) 1
       else mk (S (year d)) 1 1.

(** [pd.date_range(start=start, periods=periods, freq='D')]. *)
Fixpoint date_range (start : t) (periods : nat) : list t :=
  match periods with
  | O => []
  | S n => start :: date_range (next_day start) n
  end.

End Date.

(* ------------------------------------------------------------------ *)
(** ** The record store: [load_data] *)

(** One row of the data frame, a column per key of [sample_data].  The
    [date] column holds midnight timestamps; the program reads them
    through [.dt.date] or prints them by day, so a row carries the calendar
    date. *)
Record MentionRecord : Type := mkMention {
  text : string;
  sentiment : string;
  emotion : string;
  source : string;
  platform : string;
  search_term : string;
  polarity : Q;
  date : Date.t
}.

Definition DataFrame : Type := list MentionRecord.

(** The columns of [sample_data], in the order of the source. *)
Module sample_data.

Definition text : list string :=
  [ "DBS Bank India has excellent customer service and quick loan approval";
    "DBS app crashes too often, very frustrating experience";
    "DBS net banking interface is user-friendly and secure";
    "DBS credit card has high interest rates, not recommended";
    "DBS mobile banking works smoothly, love the features";
    "Poor customer support from DBS Bank India branch";
    "DBS digibank is innovative and convenient for daily banking";
    "DBS loan process is too lengthy and complicated";
    "Great experience with DBS debit card internationally";
    "DBS bank charges are reasonable compared to other banks" ].

Definition sentiment : list string :=
  [ "positive"; "negative"; "positive"; "negative"; "positive";
    "negative"; "positive"; "negative"; "positive"; "neutral" ].

Definition emotion : list string :=
  [ "happy"; "angry"; "satisfied"; "disappointed"; "happy";
    "angry"; "satisfied"; "disappointed"; "happy"; "neutral" ].

Definition source : list string :=
  [ "News"; "Reddit"; "News"; "Reddit"; "News";
    "Reddit"; "News"; "Reddit"; "News"; "Reddit" ].

Definition platform : list string :=
  [ "Economic Times"; "r/india"; "Business Standard"; "r/bangalore";
    "Financial Express"; "r/mumbai"; "Times of India"; "r/delhi";
    "Hindu Business"; "r/india" ].

Definition search_term : list string :=
  [ "DBS Bank India"; "DBS app"; "DBS net banking"; "DBS credit card";
    "DBS mobile banking"; "DBS Bank India"; "DBS digibank"; "DBS loan";
    "DBS debit card"; "DBS Bank India" ].

Definition polarity : list Q :=
  [ 0.8; -0.7; 0.6; -0.5; 0.7; -0.6; 0.8; -0.4; 0.9; 0.1 ]%Q.

Definition date : list Date.t :=
  Date.date_range (Date.mk 2024 6 1) 10.

End sample_data.

(** [pd.DataFrame(columns)]: row [i] takes the [i]-th entry of every
    column (the eight columns of [sample_data] have one length). *)
Fixpoint frame_of_columns
    (c_text c_sentiment c_emotion c_source c_platform c_term : list string)
    (c_polarity : list Q) (c_date : list Date.t) : DataFrame :=
  match c_text, c_sentiment, c_emotion, c_source,
        c_platform, c_term, c_polarity, c_date with
  | t :: ts, s :: ss, e :: es, o :: os, p :: ps, k :: ks, q :: qs, d :: ds =>
      mkMention t s e o p k q d
        :: frame_of_columns ts ss es os ps ks qs ds
  | _, _, _, _, _, _, _, _ => []
  end.

Definition load_data : DataFrame :=
  frame_of_columns sample_data.text sample_data.sentiment
    sample_data.emotion sample_data.source sample_data.platform
    sample_data.search_term sample_data.polarity sample_data.date.

(* ------------------------------------------------------------------ *)
(** ** The filter engine (main, "Filter data") *)

(** [Series.isin(values)] on one cell. *)
Definition isin (x : string) (values : list string) : bool :=
  existsb (String.eqb x) values.

(** The boolean mask of the branch [len(date_range) == 2]. *)
Definition mask_dated (d0 d1 : Date.t) (sources products : list string)
    (r : MentionRecord) : bool :=
  Date.leb d0 (date r) && Date.leb (date r) d1
  && isin (source r) sources && isin (search_term r) products.

(** The boolean mask of the [else] branch. *)
Definition mask_undated (sources products : list string)
    (r : MentionRecord) : bool :=
  isin (source r) sources && isin (search_term r) products.

(** [df_filtered]: [date_range] is the tuple returned by the date widget,
    [sources] and [products] the two multi-select values. *)
Definition df_filtered (df : DataFrame) (date_range : list Date.t)
    (sources products : list string) : DataFrame :=
  match date_range with
  | [d0; d1] => filter (mask_dated d0 d1 sources products) df
  | _ => filter (mask_undated sources products) df
  end.


(** [Series.unique()]: the distinct values in order of first appearance. *)
Fixpoint unique (l : list string) : list string :=
  match l with
  | [] => []
  | x :: rest => x :: filter (fun y => negb (String.eqb y x)) (unique rest)
  end.

Definition date_min (a b : Date.t) : Date.t := if Date.leb a b then a else b.
Definition date_max (a b : Date.t) : Date.t := if Date.leb a b then b else a.

(** The value the date widget starts with:
    [(df['date'].min().date(), df['date'].max().date())]. *)
Definition default_date_range (df : DataFrame) : list Date.t :=
  match map date df with
  | [] => []
  | d :: ds => [fold_left date_min ds d; fold_left date_max ds d]
  end.

(** The values the two multi-selects start with. *)
Definition default_sources (df : DataFrame) : list string :=
  unique (map source df).

Definition default_products (df : DataFrame) : list string :=
  unique (map search_term df).

(** [df.iloc[positions]]: the rows at the given positions, counted from 0. *)
Definition iloc (positions : list nat) (df : DataFrame) : DataFrame :=
  flat_map (fun i => match nth_error df i with
                     | Some r => [r]
                     | None => []
                     end) positions.

(** The view after deselecting every source but Reddit, the other two
    widgets left at their defaults. *)
Definition reddit_view : DataFrame :=
  df_filtered load_data (default_date_range load_data) ["Reddit"]
    (default_products load_data).

(* ------------------------------------------------------------------ *)
(** ** Summary metrics (main, "Main metrics") *)

(** The mask [df_filtered['sentiment'] == s]. *)
Definition sentiment_is (s : string) (r : MentionRecord) : bool :=
  String.eqb (sentiment r) s.

Definition total_mentions (df : DataFrame) : nat := List.length df.

Definition positive_count (df : DataFrame) : nat :=
  List.length (filter (sentiment_is "positive") df).

Definition negative_count (df : DataFrame) : nat :=
  List.length (filter (sentiment_is "negative") df).

Definition neutral_count (df : DataFrame) : nat :=
  List.length (filter (sentiment_is "neutral") df).

(** A computation that may raise: [None] stands for a Python exception. *)
Definition bind {A B : Type} (m : option A) (k : A -> option B) : option B :=
  match m with
  | Some a => k a
  | None => None
  end.

Notation "x <- m ;; k" := (bind m (fun x => k))
  (at level 61, m at next level, right associativity).

(** [a / b] on two ints: the quotient as a number, in exact arithmetic;
    ZeroDivisionError when [b] is 0. *)
Definition truediv (a b : nat) : option Q :=
  if b =? 0 then None
  else Some (inject_Z (Z.of_nat a) / inject_Z (Z.of_nat b))%Q.

(** [(count / total_mentions * 100) if total_mentions > 0 else 0]. *)
Definition percentage (count total : nat) : option Q :=
  if 0 <? total
  then q <- truediv count total ;; Some (q * 100)%Q
  else Some 0%Q.

Definition positive_pct (df : DataFrame) : option Q :=
  percentage (positive_count df) (total_mentions df).

Definition negative_pct (df : DataFrame) : option Q :=
  percentage (negative_count df) (total_mentions df).

Definition neutral_pct (df : DataFrame) : option Q :=
  percentage (neutral_count df) (total_mentions df).

(** The three metric cards next to the total: sentiment class, count and
    percentage, in the order the program computes them. *)
Definition count_by_sentiment (df : DataFrame)
    : option (list (string * (nat * Q))) :=
  p <- positive_pct df ;;
  n <- negative_pct df ;;
  u <- neutral_pct df ;;
  Some [ ("positive", (positive_count df, p));
         ("negative", (negative_count df, n));
         ("neutral", (neutral_count df, u)) ].

(** [count] out of [total], in per cent. *)
Definition share (count total : nat) : Q :=
  (inject_Z (Z.of_nat count) / inject_Z (Z.of_nat total) * 100)%Q.

(** The same percentages in the arithmetic of the program, IEEE 754
    binary64. *)
Module Binary64.

Import PrimFloat.

(** [float(n)]; exact for the small numbers counted here. *)
Fixpoint of_nat (n : nat) : float :=
  match n with
  | O => 0%float
  | S k => (of_nat k + 1)%float
  end.

Definition percentage (count total : nat) : float :=
  if 0 <? total
  then (of_nat count / of_nat total * 100)%float
  else 0%float.

(** [x] is within 2^-40 of 100. *)
Definition near_100 (x : float) : bool :=
  PrimFloat.leb (abs (x - 100)) 0x1p-40%float.

(** The sum of three percentages, added from left to right. *)
Definition sum3 (a b c : float) : float := (a + b + c)%float.

(** The three percentages of a view with [p] positive, [n] negative and
    [u] neutral records add up to 100, or the view is empty. *)
Definition cards_add_up (p n u : nat) : bool :=
  let t := p + n + u in
  (t =? 0) || near_100 (sum3 (percentage p t) (percentage n t) (percentage u t)).

(** 100 less 2^-46, printed 99.999999999999986. *)
Definition just_below_100 : float := (100 - 0x1p-46)%float.

End Binary64.

(** The sentiment classes of the data model. *)
Definition sentiment_class (s : string) : Prop :=
  s = "positive" \/ s = "negative" \/ s = "neutral".

(* ------------------------------------------------------------------ *)
(** ** Group-by tables (main, "Time series" and "Product breakdown") *)

Section GroupBy.

Context {K : Type} (cmp : K -> K -> comparison).

(** Count one more occurrence of [k] in a table kept sorted by key. *)
Fixpoint bump (k : K) (rows : list (K * nat)) : list (K * nat) :=
  match rows with
  | [] => [(k, 1)]
  | (k', c) :: rest =>
      match cmp k k' with
      | Eq => (k', S c) :: rest
      | Lt => (k, 1) :: (k', c) :: rest
      | Gt => (k', c) :: bump k rest
      end
  end.

(** [groupby(keys).size().reset_index(name='count')] over the key of
    every row: one output row per key that occurs, with the number of
    its occurrences, in ascending key order (groupby sorts its keys). *)
Fixpoint groupby_size (keys : list K) : list (K * nat) :=
  match keys with
  | [] => []
  | k :: rest => bump k (groupby_size rest)
  end.

(** How often [k] occurs in [keys]. *)
Fixpoint occurrences (k : K) (keys : list K) : nat :=
  match keys with
  | [] => 0
  | k' :: rest =>
      match cmp k k' with
      | Eq => S (occurrences k rest)
      | _ => occurrences k rest
      end
  end.

Definition key_lt (a b : K) : Prop := cmp a b = Lt.

(** A table whose keys are strictly ascending. *)
Definition table_sorted (rows : list (K * nat)) : Prop :=
  StronglySorted key_lt (map fst rows).

(** The count stored for [k], 0 when [k] has no row. *)
Fixpoint count_of (k : K) (rows : list (K * nat)) : nat :=
  match rows with
  | [] => 0
  | (k', c) :: rest =>
      match cmp k k' with
      | Eq => c
      | _ => count_of k rest
      end
  end.

End GroupBy.

(** Ordering of the group keys: the first column, then the sentiment
    string. *)
Definition date_sentiment_compare : Date.t * string -> Date.t * string -> comparison :=
  lex_compare Date.compare String.compare.

Definition term_sentiment_compare : string * string -> string * string -> comparison :=
  lex_compare String.compare String.compare.

(** [df_filtered.groupby([df_filtered['date'].dt.date, 'sentiment']).size()
    .reset_index(name='count')]; the program computes it when the view is
    not empty. *)
Definition daily_sentiment (df : DataFrame) : list ((Date.t * string) * nat) :=
  groupby_size date_sentiment_compare (map (fun r => (date r, sentiment r)) df).

(** [df_filtered.groupby(['search_term', 'sentiment']).size()
    .reset_index(name='count')]; likewise computed when the view is not
    empty. *)
Definition product_sentiment (df : DataFrame) : list ((string * string) * nat) :=
  groupby_size term_sentiment_compare
    (map (fun r => (search_term r, sentiment r)) df).

(** Ascending order of the group keys: by the first column, and by the
    sentiment string, compared character by character, within one value of
    the first column. *)
Definition date_sentiment_lt (a b : Date.t * string) : Prop :=
  Date.compare (fst a) (fst b) = Lt
  \/ (fst a = fst b /\ String.compare (snd a) (snd b) = Lt).

Definition term_sentiment_lt (a b : string * string) : Prop :=
  String.compare (fst a) (fst b) = Lt
  \/ (fst a = fst b /\ String.compare (snd a) (snd b) = Lt).

(** The sum of the [count] column. *)
Definition total_count {K : Type} (rows : list (K * nat)) : nat :=
  fold_right (fun row acc => snd row + acc) 0 rows.

(* ------------------------------------------------------------------ *)
(** ** Top posts (main, "Top posts section") *)

Section SortValues.

(** [before a b]: row [a] may stand in front of row [b]. *)
Variable before : MentionRecord -> MentionRecord -> bool.

(** Put [x] in front of the first row it may stand in front of. *)
Fixpoint insert_row (x : MentionRecord) (l : DataFrame) : DataFrame :=
  match l with
  | [] => [x]
  | y :: rest => if before x y then x :: y :: rest else y :: insert_row x rest
  end.

(** A stable sort: a row is inserted in front of the rows that follow it
    in the frame and have an equal key. *)
Fixpoint sort_rows (l : DataFrame) : DataFrame :=
  match l with
  | [] => []
  | x :: rest => insert_row x (sort_rows rest)
  end.

End SortValues.

Definition polarity_ge (a b : MentionRecord) : bool :=
  Qle_bool (polarity b) (polarity a).

Definition polarity_le (a b : MentionRecord) : bool :=
  Qle_bool (polarity a) (polarity b).

(** [DataFrame.nlargest(n, 'polarity')] with the default [keep='first']:
    the first [n] rows in descending order of polarity, rows of equal
    polarity in frame order. *)
Definition nlargest (n : nat) (df : DataFrame) : DataFrame :=
  firstn n (sort_rows polarity_ge df).

(** [DataFrame.nsmallest(n, 'polarity')], likewise in ascending order. *)
Definition nsmallest (n : nat) (df : DataFrame) : DataFrame :=
  firstn n (sort_rows polarity_le df).

Definition positive_posts (df : DataFrame) : DataFrame :=
  nlargest 3 (filter (sentiment_is "positive") df).

Definition negative_posts (df : DataFrame) : DataFrame :=
  nsmallest 3 (filter (sentiment_is "negative") df).

Inductive direction : Type := dir_max | dir_min.

(** The two selections above as one operation with the sentiment, the
    number of rows and the direction as arguments. *)
Definition top_k_by_polarity (records : DataFrame) (s : string) (k : nat)
    (d : direction) : DataFrame :=
  match d with
  | dir_max => nlargest k (filter (sentiment_is s) records)
  | dir_min => nsmallest k (filter (sentiment_is s) records)
  end.

(** [sorted_by before l]: every row may stand in front of all later rows. *)
Definition sorted_by (before : MentionRecord -> MentionRecord -> bool)
    (l : DataFrame) : Prop :=
  StronglySorted (fun a b => before a b = true) l.

Definition before_of (d : direction) : MentionRecord -> MentionRecord -> bool :=
  match d with dir_max => polarity_ge | dir_min => polarity_le end.

(** The rows of [l] whose polarity equals [q], in the order of [l]. *)
Definition with_polarity (q : Q) (l : DataFrame) : DataFrame :=
  filter (fun r => Qeq_bool (polarity r) q) l.

(** [l1] is a subsequence of [l2]: [l2] with some rows left out. *)
Inductive Subseq {A : Type} : list A -> list A -> Prop :=
| Subseq_nil : Subseq [] []
| Subseq_keep : forall x l1 l2, Subseq l1 l2 -> Subseq (x :: l1) (x :: l2)
| Subseq_drop : forall x l1 l2, Subseq l1 l2 -> Subseq l1 (x :: l2).

(** [l1] is an initial segment of [l2]. *)
Definition Prefix {A : Type} (l1 l2 : list A) : Prop :=
  exists rest, l2 = l1 ++ rest.


(* ------------------------------------------------------------------ *)
(** ** CSV export (main, "Data export") *)

Module Csv.

Definition delimiter : ascii := ","%char.
Definition quotechar : ascii := ascii_of_nat 34.
Definition LF : ascii := ascii_of_nat 10.
Definition CR : ascii := ascii_of_nat 13.

(** Characters that make the writer quote a field (QUOTE_MINIMAL). *)
Definition special (c : ascii) : bool :=
  Ascii.eqb c delimiter || Ascii.eqb c quotechar
  || Ascii.eqb c LF || Ascii.eqb c CR.

Fixpoint needs_quoting (s : string) : bool :=
  match s with
  | EmptyString => false
  | String c rest => special c || needs_quoting rest
  end.

(** [doublequote=True]: a quote character inside a field is written
    twice. *)
Fixpoint double_quotes (s : string) : string :=
  match s with
  | EmptyString => EmptyString
  | String c rest =>
      if Ascii.eqb c quotechar
      then String c (String c (double_quotes rest))
      else String c (double_quotes rest)
  end.

Definition write_field (s : string) : string :=
  if needs_quoting s
  then String quotechar (double_quotes s ++ String quotechar EmptyString)
  else s.

(** One line of the file: the fields joined by the delimiter, then the
    line terminator ([os.linesep], a line feed). *)
Fixpoint write_row (cells : list string) : string :=
  match cells with
  | [] => String LF EmptyString
  | [c] => write_field c ++ String LF EmptyString
  | c :: rest => write_field c ++ String delimiter (write_row rest)
  end.

(** The lines of the file, one after the other. *)
Fixpoint write_rows (rows : list (list string)) : string :=
  match rows with
  | [] => EmptyString
  | cells :: rest => (write_row cells ++ write_rows rest)%string
  end.

(** The column labels, in the order of the keys of [sample_data]. *)
Definition columns : list string :=
  [ "text"; "sentiment"; "emotion"; "source"; "platform"; "search_term";
    "polarity"; "date" ].

(** The state of the reader between two characters. *)
Inductive state : Type :=
| StartField       (* at the start of a field *)
| InField          (* inside a field that is not quoted *)
| InQuoted         (* inside a quoted field *)
| QuoteInQuoted.   (* just after a quote inside a quoted field *)

Definition snoc (s : string) (c : ascii) : string :=
  (s ++ String c EmptyString)%string.

(** Modelled from the spec: the reader that parses the export back is not
    part of src/app.py, which only writes the file.  This is a reader
    for the dialect written above: fields separated by [delimiter], rows
    ended by [LF], a field optionally enclosed in [quotechar] with inner
    quotes doubled.  [cur] is the field read so far, [row] the fields of
    the current row and [rows] the finished rows, both latest first.
    It fails on an unterminated quoted field and on text between a
    closing quote and the next separator. *)
Fixpoint read_rows (st : state) (cur : string) (row : list string)
    (rows : list (list string)) (input : string)
    : option (list (list string)) :=
  match input with
  | EmptyString =>
      match st, row with
      | StartField, [] => Some (rev rows)
      | InQuoted, _ => None
      | _, _ => Some (rev (rev (cur :: row) :: rows))
      end
  | String c rest =>
      match st with
      | StartField =>
          if Ascii.eqb c quotechar then
            read_rows InQuoted EmptyString row rows rest
          else if Ascii.eqb c delimiter then
            read_rows StartField EmptyString (EmptyString :: row) rows rest
          else if Ascii.eqb c LF then
            read_rows StartField EmptyString []
              (rev (EmptyString :: row) :: rows) rest
          else read_rows InField (String c EmptyString) row rows rest
      | InField =>
          if Ascii.eqb c delimiter then
            read_rows StartField EmptyString (cur :: row) rows rest
          else if Ascii.eqb c LF then
            read_rows StartField EmptyString [] (rev (cur :: row) :: rows) rest
          else read_rows InField (snoc cur c) row rows rest
      | InQuoted =>
          if Ascii.eqb c quotechar then
            read_rows QuoteInQuoted cur row rows rest
          else read_rows InQuoted (snoc cur c) row rows rest
      | QuoteInQuoted =>
          if Ascii.eqb c quotechar then
            read_rows InQuoted (snoc cur c) row rows rest
          else if Ascii.eqb c delimiter then
            read_rows StartField EmptyString (cur :: row) rows rest
          else if Ascii.eqb c LF then
            read_rows StartField EmptyString [] (rev (cur :: row) :: rows) rest
          else None
      end
  end.

Definition parse (input : string) : option (list (list string)) :=
  read_rows StartField EmptyString [] [] input.

(** A field separator: the delimiter or the line end. *)
Definition separator (c : ascii) : Prop := c = delimiter \/ c = LF.

(** How the reader goes on after a field [s] ended by the separator
    [sep]: the delimiter adds the field to the row, the line end
    finishes the row as well. *)
Definition after_field (sep : ascii) (s : string) (row : list string)
    (rows : list (list string)) (rest : string)
    : option (list (list string)) :=
  if Ascii.eqb sep delimiter
  then read_rows StartField EmptyString (s :: row) rows rest
  else read_rows StartField EmptyString [] (rev (s :: row) :: rows) rest.

Fixpoint traverse {A B : Type} (f : A -> option B) (l : list A)
    : option (list B) :=
  match l with
  | [] => Some []
  | x :: rest =>
      match f x, traverse f rest with
      | Some y, Some ys => Some (y :: ys)
      | _, _ => None
      end
  end.

Section Codec.

(** How a float and a date are written to a cell ([repr] of the float,
    ISO format of the date) and read back. *)
Variable fmt_float : Q -> string.
Variable fmt_date : Date.t -> string.
Variable parse_float : string -> option Q.
Variable parse_date : string -> option Date.t.

(** The cells of one row, a cell per column. *)
Definition cells_of (r : MentionRecord) : list string :=
  [ text r; sentiment r; emotion r; source r; platform r; search_term r;
    fmt_float (polarity r); fmt_date (date r) ].

(** [df_filtered.to_csv(index=False)]: the header line, then a line
    per row. *)
Definition to_csv (df : DataFrame) : string :=
  write_rows (columns :: map cells_of df).

(** Modelled from the spec: reading a row of cells back into a record,
    field for field. *)
Definition record_of (cells : list string) : option MentionRecord :=
  match cells with
  | [t; s; e; o; p; k; q; d] =>
      match parse_float q, parse_date d with
      | Some q', Some d' => Some (mkMention t s e o p k q' d')
      | _, _ => None
      end
  | _ => None
  end.

(** Modelled from the spec: parsing the export back, the header line
    checked against [columns]. *)
Definition read_csv (input : string) : option DataFrame :=
  match parse input with
  | Some (header :: rows) =>
      if list_eq_dec string_dec header columns
      then traverse record_of rows
      else None
  | _ => None
  end.

(** The float and the date of [r] survive being written and read. *)
Definition codec_ok (r : MentionRecord) : Prop :=
  parse_float (fmt_float (polarity r)) = Some (polarity r)
  /\ parse_date (fmt_date (date r)) = Some (date r).

End Codec.

(** *** A concrete cell format for the sample data *)

Definition digit (n : nat) : ascii := ascii_of_nat (48 + n mod 10).

Definition digit_value (c : ascii) : option nat :=
  let n := nat_of_ascii c in
  if (48 <=? n) && (n <=? 57) then Some (n - 48) else None.

(** The value of a string of decimal digits, [acc] the value read so
    far. *)
Fixpoint number_of (acc : nat) (s : string) : option nat :=
  match s with
  | EmptyString => Some acc
  | String c rest =>
      match digit_value c with
      | Some d => number_of (10 * acc + d) rest
      | None => None
      end
  end.

Definition pad2 (n : nat) : string :=
  String (digit (n / 10)) (String (digit n) EmptyString).

Definition pad4 (n : nat) : string :=
  String (digit (n / 1000)) (String (digit (n / 100)) (pad2 n)).

(** [date.isoformat()]: YYYY-MM-DD. *)
Definition isoformat (d : Date.t) : string :=
  (pad4 (Date.year d) ++ "-" ++ pad2 (Date.month d) ++ "-"
   ++ pad2 (Date.day d))%string.

Definition fromisoformat (s : string) : option Date.t :=
  match number_of 0 (substring 0 4 s), number_of 0 (substring 5 2 s),
        number_of 0 (substring 8 2 s) with
  | Some y, Some m, Some d =>
      if String.eqb s (isoformat (Date.mk y m d))
      then Some (Date.mk y m d) else None
  | _, _, _ => None
  end.

(** The text of a polarity with one decimal digit, the precision of the
    literals of [sample_data]: sign, integer part, point, tenths. *)
Definition repr_tenths (q : Q) : string :=
  let t := (Qnum q * 10 / Z.pos (Qden q))%Z in
  let a := Z.to_nat (Z.abs t) in
  ((if (t <? 0)%Z then "-" else EmptyString)
   ++ String (digit (a / 10)) (String "."%char (String (digit a) EmptyString)))%string.

Definition float_of_tenths (s : string) : option Q :=
  let '(neg, body) :=
    match s with
    | String "-"%char rest => (true, rest)
    | _ => (false, s)
    end in
  match body with
  | String i (String "."%char (String f EmptyString)) =>
      match digit_value i, digit_value f with
      | Some a, Some b =>
          let n := Z.of_nat (10 * a + b) in
          Some (Qmake (if neg then (- n)%Z else n) 10)
      | _, _ => None
      end
  | _ => None
  end.

(** A record whose polarity and date the concrete format can write: a
    polarity of at most two digits, one of them decimal, and a date of at
    most four, two and two digits. *)
Definition printable (r : MentionRecord) : Prop :=
  (exists n : Z, (-100 < n < 100)%Z /\ polarity r = Qmake n 10)
  /\ Date.year (date r) < 100 * 100
  /\ Date.month (date r) < 100
  /\ Date.day (date r) < 100.

(** [number_of] reads [n] back from its [width]-digit text. *)
Definition reads_back (text_of : nat -> string) (n : nat) : bool :=
  match number_of 0 (text_of n) with
  | Some m => m =? n
  | None => false
  end.

(** [float_of_tenths] reads [k - 99] tenths back from their text. *)
Definition tenths_read_back (k : nat) : bool :=
  let n := (Z.of_nat k - 99)%Z in
  match float_of_tenths (repr_tenths (Qmake n 10)) with
  | Some q => Z.eqb (Qnum q) n && Pos.eqb (Qden q) 10
  | None => false
  end.

End Csv.



(* ------------------------------------------------------------------ *)
(** ** Pie charts (main, "Charts section") *)

(** Count one more occurrence of [x]: in its row when it has one, in a new
    row after the others when it has none. *)
Fixpoint tally (x : string) (rows : list (string * nat)) : list (string * nat) :=
  match rows with
  | [] => [(x, 1)]
  | (y, c) :: rest =>
      if String.eqb x y then (y, S c) :: rest else (y, c) :: tally x rest
  end.

(** The number of occurrences of every value, the values in order of
    first appearance. *)
Definition tally_all (values : list string) : list (string * nat) :=
  fold_left (fun rows x => tally x rows) values [].

(** The count stored for [k], 0 when [k] has no row. *)
Fixpoint tallied (k : string) (rows : list (string * nat)) : nat :=
  match rows with
  | [] => 0
  | (y, c) :: rest => if String.eqb k y then c else tallied k rest
  end.

Section InsertionSort.

Context {A : Type} (before : A -> A -> bool).

Fixpoint insert_sorted (x : A) (l : list A) : list A :=
  match l with
  | [] => [x]
  | y :: rest =>
      if before x y then x :: y :: rest else y :: insert_sorted x rest
  end.

(** A stable sort: an element goes in front of the later elements it may
    stand in front of. *)
Fixpoint stable_sort (l : list A) : list A :=
  match l with
  | [] => []
  | x :: rest => insert_sorted x (stable_sort rest)
  end.

End InsertionSort.

Definition count_ge (a b : string * nat) : bool := snd b <=? snd a.

(** [Series.value_counts()]: a row per distinct value with the number of
    its occurrences, the most frequent value first. *)
Definition value_counts (values : list string) : list (string * nat) :=
  stable_sort count_ge (tally_all values).

(** [df_filtered['sentiment'].value_counts()]. *)
Definition sentiment_counts (df : DataFrame) : list (string * nat) :=
  value_counts (map sentiment df).

(** [df_filtered['emotion'].value_counts()]. *)
Definition emotion_counts (df : DataFrame) : list (string * nat) :=
  value_counts (map emotion df).

(* ------------------------------------------------------------------ *)
(** ** The page (main) *)

(** [' '.join(df_filtered['text'].astype(str))], the text handed to the
    word cloud. *)
Definition all_text (df : DataFrame) : string :=
  String.concat " " (map text df).

(** [df_filtered.empty]. *)
Definition empty (df : DataFrame) : bool :=
  match df with
  | [] => true
  | _ :: _ => false
  end.

(** [a] if the view is not empty; [None] stands for the notice "No data
    available for selected filters" (for the word cloud: nothing is
    drawn). *)
Definition unless_empty {A : Type} (df : DataFrame) (a : A) : option A :=
  if empty df then None else Some a.

(** What one run of [main] hands to the display calls. *)
Record Page : Type := mkPage {
  shown_total : nat;
  shown_cards : list (string * (nat * Q));
  shown_sentiment_pie : option (list (string * nat));
  shown_emotion_pie : option (list (string * nat));
  shown_trend : option (list ((Date.t * string) * nat));
  shown_products : option (list ((string * string) * nat));
  shown_positive : DataFrame;
  shown_negative : DataFrame;
  shown_cloud_text : option string
}.

(** The part of [main] after the filter, on the filtered view. *)
Definition page_of (view : DataFrame) : option Page :=
  cards <- count_by_sentiment view ;;
  Some (mkPage (total_mentions view) cards
          (unless_empty view (sentiment_counts view))
          (unless_empty view (emotion_counts view))
          (unless_empty view (daily_sentiment view))
          (unless_empty view (product_sentiment view))
          (positive_posts view) (negative_posts view)
          (unless_empty view (all_text view))).

(** [main], as a function of the values of the three widgets. *)
Definition main (date_range : list Date.t) (sources products : list string)
    : option Page :=
  page_of (df_filtered load_data date_range sources products).

(** The page of an empty view. *)
Definition no_data_page : Page :=
  mkPage 0
    [ ("positive", (0, 0%Q)); ("negative", (0, 0%Q)); ("neutral", (0, 0%Q)) ]
    None None None None [] [] None.

(** [strftime('%Y-%m-%d')] of the date of a post. *)
Definition post_date_label (r : MentionRecord) : string :=
  Csv.isoformat (date r).

(** The name of the downloaded file,
    [f"dbs_sentiment_data_{datetime.now().strftime('%Y%m%d')}.csv"], on the
    day [today]. *)
Definition file_name (today : Date.t) : string :=
  ("dbs_sentiment_data_"
   ++ Csv.pad4 (Date.year today) ++ Csv.pad2 (Date.month today)
   ++ Csv.pad2 (Date.day today) ++ ".csv")%string.

(** A date of the calendar. *)
Definition valid_date (d : Date.t) : Prop :=
  1 <= Date.month d <= 12
  /\ 1 <= Date.day d <= Date.days_in_month (Date.year d) (Date.month d).

Definition date_lt (a b : Date.t) : Prop := Date.compare a b = Lt.

(* ================================================================== *)
(** * Properties *)

(* ------------------------------------------------------------------ *)
(** ** The comparisons are strict total orders *)

#[export] Instance nat_compare_order : CmpOrder Nat.compare.
Proof.
  split.
  - intros a b. apply Nat.compare_eq_iff.
  - intros a b. apply Nat.compare_antisym.
  - intros a b c. rewrite !Nat.compare_lt_iff. lia.
Qed.

Lemma ascii_compare_refl (c : ascii) : Ascii.compare c c = Eq.
Proof. unfold Ascii.compare. apply N.compare_refl. Qed.

Lemma ascii_compare_lt_trans (a b c : ascii) :
  Ascii.compare a b = Lt -> Ascii.compare b c = Lt -> Ascii.compare a c = Lt.
Proof. unfold Ascii.compare. rewrite !N.compare_lt_iff. lia. Qed.

Lemma string_compare_refl (s : string) : String.compare s s = Eq.
Proof.
  induction s as [|c s IH]; simpl; [reflexivity|].
  now rewrite ascii_compare_refl.
Qed.

Lemma string_compare_lt_trans (a b c : string) :
  String.compare a b = Lt -> String.compare b c = Lt -> String.compare a c = Lt.
Proof.
  revert b c. induction a as [|x a IH]; intros [|y b] [|z c]; simpl;
    try discriminate; try reflexivity.
  destruct (Ascii.compare x y) eqn:Hxy; try discriminate.
  - apply Ascii.compare_eq_iff in Hxy. subst y.
    destruct (Ascii.compare x z); try discriminate; auto.
    apply IH.
  - intros _. destruct (Ascii.compare y z) eqn:Hyz; try discriminate.
    + apply Ascii.compare_eq_iff in Hyz. subst z. now rewrite Hxy.
    + intros _. now rewrite (ascii_compare_lt_trans _ _ _ Hxy Hyz).
Qed.

#[export] Instance string_compare_order : CmpOrder String.compare.
Proof.
  split.
  - intros a b. split.
    + apply String.compare_eq_iff.
    + intros ->. apply string_compare_refl.
  - intros a b. apply String.compare_antisym.
  - apply string_compare_lt_trans.
Qed.

Section LexOrder.

Context {A B : Type} (ca : A -> A -> comparison) (cb : B -> B -> comparison).
Context {OA : CmpOrder ca} {OB : CmpOrder cb}.

Lemma lex_compare_lt_iff (x y : A * B) :
  lex_compare ca cb x y = Lt <->
  ca (fst x) (fst y) = Lt \/ (fst x = fst y /\ cb (snd x) (snd y) = Lt).
Proof.
  unfold lex_compare. destruct (ca (fst x) (fst y)) eqn:E.
  - apply cmp_eq_iff in E. split; [tauto|].
    intros [H|[_ H]]; [discriminate|exact H].
  - tauto.
  - split; [discriminate|]. intros [H|[H _]]; [discriminate|].
    apply (cmp_eq_iff (cmp:=ca)) in H. congruence.
Qed.

#[export] Instance lex_compare_order : CmpOrder (lex_compare ca cb).
Proof.
  split.
  - intros [a1 b1] [a2 b2]. unfold lex_compare. simpl.
    destruct (ca a1 a2) eqn:E.
    + apply cmp_eq_iff in E. subst a2. rewrite cmp_eq_iff.
      split; congruence.
    + split; [discriminate|]. intros H. inversion H; subst.
      assert (ca a2 a2 = Eq) by now apply cmp_eq_iff. congruence.
    + split; [discriminate|]. intros H. inversion H; subst.
      assert (ca a2 a2 = Eq) by now apply cmp_eq_iff. congruence.
  - intros [a1 b1] [a2 b2]. unfold lex_compare. simpl.
    rewrite (cmp_antisym (cmp:=ca) a1 a2).
    destruct (ca a1 a2); simpl; auto. apply cmp_antisym.
  - intros x y z. rewrite !lex_compare_lt_iff.
    intros [H1|[E1 H1]] [H2|[E2 H2]].
    + left. eapply cmp_lt_trans; eauto.
    + left. now rewrite <- E2.
    + left. now rewrite E1.
    + right. split; [congruence|]. eapply cmp_lt_trans; eauto.
Qed.

End LexOrder.

(** A comparison pulled back along an injective function. *)
Lemma cmp_order_inj {A B : Type} (cmp : B -> B -> comparison) (f : A -> B) :
  CmpOrder cmp -> (forall a b, f a = f b -> a = b) ->
  CmpOrder (fun a b => cmp (f a) (f b)).
Proof.
  intros O Hinj. split.
  - intros a b. rewrite cmp_eq_iff. split; [apply Hinj|congruence].
  - intros a b. apply cmp_antisym.
  - intros a b c. apply cmp_lt_trans.
Qed.

#[export] Instance date_compare_order : CmpOrder Date.compare.
Proof.
  unfold Date.compare.
  apply (cmp_order_inj
           (lex_compare Nat.compare (lex_compare Nat.compare Nat.compare))
           (fun d => (Date.year d, (Date.month d, Date.day d)))).
  - typeclasses eauto.
  - intros [y1 m1 d1] [y2 m2 d2]. simpl. congruence.
Qed.

#[export] Instance date_sentiment_order : CmpOrder date_sentiment_compare.
Proof. unfold date_sentiment_compare. typeclasses eauto. Qed.

#[export] Instance term_sentiment_order : CmpOrder term_sentiment_compare.
Proof. unfold term_sentiment_compare. typeclasses eauto. Qed.

(** [Date.le] is the order of the calendar: an earlier year, or the same
    year and an earlier month, or the same month and no later day. *)
Lemma date_le_iff (a b : Date.t) :
  Date.le a b <->
  Date.year a < Date.year b
  \/ (Date.year a = Date.year b /\ Date.month a < Date.month b)
  \/ (Date.year a = Date.year b /\ Date.month a = Date.month b
      /\ Date.day a <= Date.day b).
Proof.
  unfold Date.le, Date.compare, lex_compare. simpl.
  destruct (Nat.compare_spec (Date.year a) (Date.year b));
    destruct (Nat.compare_spec (Date.month a) (Date.month b));
    destruct (Nat.compare_spec (Date.day a) (Date.day b));
    split; intros; try congruence; try lia.
Qed.

Lemma date_leb_le (a b : Date.t) : Date.leb a b = true <-> Date.le a b.
Proof.
  unfold Date.leb, Date.le. destruct (Date.compare a b); split; congruence.
Qed.

(* ------------------------------------------------------------------ *)
(** ** The filter engine *)

Lemma isin_In (x : string) (values : list string) :
  isin x values = true <-> In x values.
Proof.
  unfold isin. rewrite existsb_exists. split.
  - intros [y [Hy E]]. apply String.eqb_eq in E. now subst.
  - intros H. exists x. split; [exact H|apply String.eqb_refl].
Qed.

Lemma mask_undated_iff sources products r :
  mask_undated sources products r = true <->
  In (source r) sources /\ In (search_term r) products.
Proof.
  unfold mask_undated. now rewrite andb_true_iff, !isin_In.
Qed.

Lemma mask_dated_iff d0 d1 sources products r :
  mask_dated d0 d1 sources products r = true <->
  (Date.le d0 (date r) /\ Date.le (date r) d1)
  /\ In (source r) sources /\ In (search_term r) products.
Proof.
  unfold mask_dated. rewrite !andb_true_iff, !isin_In, !date_leb_le. tauto.
Qed.

Lemma filter_all_false {A : Type} (f : A -> bool) (l : list A) :
  (forall x, f x = false) -> filter f l = [].
Proof.
  intros H. induction l as [|x l IH]; simpl; [reflexivity|].
  now rewrite H.
Qed.

Lemma Subseq_filter {A : Type} (f : A -> bool) (l : list A) :
  Subseq (filter f l) l.
Proof.
  induction l as [|x l IH]; simpl.
  - constructor.
  - destruct (f x); now constructor.
Qed.

Lemma Subseq_length {A : Type} (l1 l2 : list A) :
  Subseq l1 l2 -> List.length l1 <= List.length l2.
Proof. induction 1; simpl; lia. Qed.

(** The filtered view is the frame filtered by one of the two masks. *)
Lemma df_filtered_cases df date_range sources products :
  (exists d0 d1, date_range = [d0; d1]
     /\ df_filtered df date_range sources products
        = filter (mask_dated d0 d1 sources products) df)
  \/ (List.length date_range <> 2
      /\ df_filtered df date_range sources products
         = filter (mask_undated sources products) df).
Proof.
  destruct date_range as [|d0 [|d1 [|d2 rest]]]; simpl.
  - right. split; [lia|reflexivity].
  - right. split; [lia|reflexivity].
  - left. exists d0, d1. split; reflexivity.
  - right. split; [lia|reflexivity].
Qed.

(** C1. A record passes the filter exactly when it is a record of the
    frame, its date lies within the two bounds (both inclusive) whenever
    the date range has two bounds, its source is among the selected sources
    and its search term among the selected products.  With no source
    selected, or no product selected, nothing passes, whatever the frame
    and the date range. *)
Theorem filter_engine_passes_iff :
  forall (df : DataFrame) (date_range : list Date.t)
         (sources products : list string),
    (forall r,
        In r (df_filtered df date_range sources products) <->
        In r df
        /\ (forall d0 d1, date_range = [d0; d1] ->
              Date.le d0 (date r) /\ Date.le (date r) d1)
        /\ In (source r) sources
        /\ In (search_term r) products)
    /\ df_filtered df date_range [] products = []
    /\ df_filtered df date_range sources [] = [].
Proof.
  intros df date_range sources products. split; [|split].
  - intros r.
    destruct (df_filtered_cases df date_range sources products)
      as [(d0 & d1 & E & ->)|(Hlen & ->)].
    + rewrite filter_In, mask_dated_iff. subst date_range. split.
      * intros (Hin & Hd & Hs & Hp).
        split; [exact Hin|]. split; [|now split].
        intros ? ? [= <- <-]. exact Hd.
      * intros (Hin & Hd & Hs & Hp).
        split; [exact Hin|]. split; [|now split].
        now apply (Hd d0 d1).
    + rewrite filter_In, mask_undated_iff. split.
      * intros (Hin & Hs & Hp).
        split; [exact Hin|]. split; [|now split].
        intros ? ? ->. simpl in Hlen. lia.
      * tauto.
  - destruct (df_filtered_cases df date_range [] products)
      as [(d0 & d1 & _ & ->)|(_ & ->)];
      apply filter_all_false; intros r.
    + apply not_true_is_false. rewrite mask_dated_iff. simpl. tauto.
    + apply not_true_is_false. rewrite mask_undated_iff. simpl. tauto.
  - destruct (df_filtered_cases df date_range sources [])
      as [(d0 & d1 & _ & ->)|(_ & ->)];
      apply filter_all_false; intros r.
    + apply not_true_is_false. rewrite mask_dated_iff. simpl. tauto.
    + apply not_true_is_false. rewrite mask_undated_iff. simpl. tauto.
Qed.

(** C6. When the date range does not have exactly two bounds, the date of
    a record is not tested: the view is the frame filtered by source and
    search term alone, so a record passes exactly when its source and its
    search term are selected. *)
Theorem partial_date_range_skips_date_test :
  forall (df : DataFrame) (date_range : list Date.t)
         (sources products : list string),
    List.length date_range <> 2 ->
    df_filtered df date_range sources products
    = filter (fun r => isin (source r) sources
                       && isin (search_term r) products) df
    /\ forall r,
         In r (df_filtered df date_range sources products) <->
         In r df /\ In (source r) sources /\ In (search_term r) products.
Proof.
  intros df date_range sources products Hlen.
  destruct (df_filtered_cases df date_range sources products)
    as [(d0 & d1 & E & _)|(_ & ->)].
  - subst date_range. simpl in Hlen. lia.
  - split; [reflexivity|].
    intros r. now rewrite filter_In, mask_undated_iff.
Qed.

Lemma partial_date_range_skips_date_test_witness :
  List.length [Date.mk 2024 6 9] <> 2
  /\ (df_filtered load_data [Date.mk 2024 6 9] ["News"] ["DBS digibank"]
      = filter (fun r => isin (source r) ["News"]
                         && isin (search_term r) ["DBS digibank"]) load_data
      /\ forall r,
           In r (df_filtered load_data [Date.mk 2024 6 9] ["News"]
                   ["DBS digibank"]) <->
           In r load_data /\ In (source r) ["News"]
           /\ In (search_term r) ["DBS digibank"]).
Proof.
  split; [simpl; lia|].
  apply (partial_date_range_skips_date_test
           load_data [Date.mk 2024 6 9] ["News"] ["DBS digibank"]).
  simpl; lia.
Defined.

(** A one-bound range: the record of 2024-06-07 passes although the bound
    is 2024-06-09. *)
Example one_bound_range_keeps_other_dates :
  df_filtered load_data [Date.mk 2024 6 9] ["News"] ["DBS digibank"]
  = iloc [6] load_data.
Proof. reflexivity. Qed.

Lemma df_filtered_Subseq df date_range sources products :
  Subseq (df_filtered df date_range sources products) df.
Proof.
  destruct (df_filtered_cases df date_range sources products)
    as [(d0 & d1 & _ & ->)|(_ & ->)]; apply Subseq_filter.
Qed.

(** C8. The filtered view is a subsequence of the frame: the records that
    pass, unchanged and in the order of the frame.  It is no longer than
    the frame, and the empty frame gives the empty view. *)
Theorem filter_engine_subsequence :
  forall (df : DataFrame) (date_range : list Date.t)
         (sources products : list string),
    Subseq (df_filtered df date_range sources products) df
    /\ List.length (df_filtered df date_range sources products)
       <= List.length df
    /\ df_filtered [] date_range sources products = [].
Proof.
  intros df date_range sources products.
  split; [apply df_filtered_Subseq|].
  split; [apply Subseq_length, df_filtered_Subseq|].
  destruct (df_filtered_cases [] date_range sources products)
    as [(d0 & d1 & _ & ->)|(_ & ->)]; reflexivity.
Qed.

(* ------------------------------------------------------------------ *)
(** ** Summary metrics *)

Lemma sentiment_is_iff s r : sentiment_is s r = true <-> sentiment r = s.
Proof. unfold sentiment_is. apply String.eqb_eq. Qed.

(** On records of the three classes the three counts add up to the number
    of records. *)
Lemma sentiment_counts_add_up (df : DataFrame) :
  Forall (fun r => sentiment_class (sentiment r)) df ->
  positive_count df + negative_count df + neutral_count df
  = total_mentions df.
Proof.
  unfold positive_count, negative_count, neutral_count, total_mentions.
  induction 1 as [|r df Hr _ IH]; simpl; [reflexivity|].
  assert (E : forall s, sentiment_is s r = String.eqb (sentiment r) s)
    by reflexivity.
  rewrite !E.
  destruct Hr as [-> | [-> | ->]]; simpl; lia.
Qed.

Lemma Forall_Subseq {A : Type} (P : A -> Prop) (l1 l2 : list A) :
  Subseq l1 l2 -> Forall P l2 -> Forall P l1.
Proof.
  induction 1 as [|x l1 l2 _ IH|x l1 l2 _ IH]; intros HP; auto;
    inversion HP; subst; auto.
Qed.

Lemma load_data_sentiment_classes :
  Forall (fun r => sentiment_class (sentiment r)) load_data.
Proof.
  unfold sentiment_class.
  repeat (constructor; [simpl; tauto|]). constructor.
Qed.

(** The guard keeps the division from failing. *)
Lemma percentage_value (count total : nat) :
  percentage count total
  = Some (if 0 <? total then share count total else 0%Q).
Proof.
  unfold percentage, truediv, share.
  destruct (Nat.ltb_spec 0 total) as [H|H]; [|reflexivity].
  destruct (Nat.eqb_spec total 0) as [E|_]; [lia|reflexivity].
Qed.

Lemma share_sum (a b c t : nat) :
  0 < t -> a + b + c = t -> (share a t + share b t + share c t == 100)%Q.
Proof.
  intros Ht E. unfold share.
  subst t. rewrite !Nat2Z.inj_add, !inject_Z_plus.
  field. rewrite <- !inject_Z_plus, <- !Nat2Z.inj_add.
  intros H. change 0%Q with (inject_Z 0) in H.
  apply (proj1 (inject_Z_injective _ _)) in H. lia.
Qed.



(** The cards of the full sample: 5, 4 and 1 records, 50, 40 and 10 per
    cent. *)
Example count_by_sentiment_sample :
  count_by_sentiment load_data
  = Some [ ("positive", (5, 50.0%Q)); ("negative", (4, 40.0%Q));
           ("neutral", (1, 10.0%Q)) ].
Proof. vm_compute. reflexivity. Qed.

(** The cards of the empty view. *)
Example count_by_sentiment_empty :
  count_by_sentiment []
  = Some [ ("positive", (0, 0%Q)); ("negative", (0, 0%Q));
           ("neutral", (0, 0%Q)) ].
Proof. reflexivity. Qed.

(** Without its guard the division fails on the empty view. *)
Example truediv_by_zero : truediv 0 (total_mentions []) = None.
Proof. reflexivity. Qed.

Lemma forallb_below (f : nat -> bool) (bound : nat) :
  forallb f (seq 0 bound) = true -> forall n, n < bound -> f n = true.
Proof.
  intros H n Hn. rewrite forallb_forall in H. apply H.
  apply in_seq. lia.
Qed.

Lemma Subseq_filter_length {A : Type} (f : A -> bool) (l1 l2 : list A) :
  Subseq l1 l2 ->
  List.length (filter f l1) <= List.length (filter f l2).
Proof.
  induction 1 as [|x l1 l2 _ IH|x l1 l2 _ IH]; simpl;
    [lia| |]; destruct (f x); simpl; lia.
Qed.

(** X9. In binary64, the arithmetic of the program, the three percentages
    of any view of the sample with at least one record add up to 100
    within 2^-40. *)
Lemma binary64_percentages_add_up (date_range : list Date.t)
    (sources products : list string) :
  0 < total_mentions (df_filtered load_data date_range sources products) ->
  Binary64.near_100
    (Binary64.sum3
       (Binary64.percentage
          (positive_count (df_filtered load_data date_range sources products))
          (total_mentions (df_filtered load_data date_range sources products)))
       (Binary64.percentage
          (negative_count (df_filtered load_data date_range sources products))
          (total_mentions (df_filtered load_data date_range sources products)))
       (Binary64.percentage
          (neutral_count (df_filtered load_data date_range sources products))
          (total_mentions (df_filtered load_data date_range sources products))))
  = true.
Proof.
  set (v := df_filtered load_data date_range sources products).
  intros Hpos.
  assert (Hsub : Subseq v load_data) by apply df_filtered_Subseq.
  assert (Hsum : positive_count v + negative_count v + neutral_count v
                 = total_mentions v).
  { apply sentiment_counts_add_up.
    apply (Forall_Subseq _ _ load_data);
      [exact Hsub|exact load_data_sentiment_classes]. }
  assert (Hp : positive_count v < 6)
    by (apply Nat.lt_succ_r,
          (Subseq_filter_length (sentiment_is "positive") _ _ Hsub)).
  assert (Hn : negative_count v < 5)
    by (apply Nat.lt_succ_r,
          (Subseq_filter_length (sentiment_is "negative") _ _ Hsub)).
  assert (Hu : neutral_count v < 2)
    by (apply Nat.lt_succ_r,
          (Subseq_filter_length (sentiment_is "neutral") _ _ Hsub)).
  assert (Hall : forallb (fun p =>
                   forallb (fun n =>
                     forallb (fun u => Binary64.cards_add_up p n u) (seq 0 2))
                     (seq 0 5)) (seq 0 6) = true)
    by (vm_compute; reflexivity).
  pose proof (forallb_below _ _ Hall _ Hp) as H1. cbv beta in H1.
  pose proof (forallb_below _ _ H1 _ Hn) as H2. cbv beta in H2.
  pose proof (forallb_below _ _ H2 _ Hu) as H3. cbv beta in H3.
  unfold Binary64.cards_add_up in H3. rewrite Hsum in H3.
  apply orb_true_iff in H3. destruct H3 as [H3|H3]; [|exact H3].
  apply Nat.eqb_eq in H3. lia.
Qed.

(** A view of three records, one of each class: a third each, and
    99.999999999999986 in all. *)
Example binary64_thirds :
  Binary64.sum3 (Binary64.percentage 1 3) (Binary64.percentage 1 3)
    (Binary64.percentage 1 3)
  = Binary64.just_below_100.
Proof. vm_compute. reflexivity. Qed.

(** C10. Every record of the loaded data set has one of the three
    sentiment classes, so whatever is selected in the three widgets, the
    positive, negative and neutral counts of the view add up to its total
    number of mentions. *)
Theorem metric_cards_consistent :
  Forall (fun r => sentiment_class (sentiment r)) load_data
  /\ forall (date_range : list Date.t) (sources products : list string),
       positive_count (df_filtered load_data date_range sources products)
       + negative_count (df_filtered load_data date_range sources products)
       + neutral_count (df_filtered load_data date_range sources products)
       = total_mentions (df_filtered load_data date_range sources products).
Proof.
  split; [exact load_data_sentiment_classes|].
  intros date_range sources products.
  apply sentiment_counts_add_up.
  apply (Forall_Subseq _ _ load_data); [|exact load_data_sentiment_classes].
  apply df_filtered_Subseq.
Qed.

(* ------------------------------------------------------------------ *)
(** ** The sample data and the Reddit view *)

Example load_data_dates :
  map date load_data
  = [ Date.mk 2024 6 1; Date.mk 2024 6 2; Date.mk 2024 6 3; Date.mk 2024 6 4;
      Date.mk 2024 6 5; Date.mk 2024 6 6; Date.mk 2024 6 7; Date.mk 2024 6 8;
      Date.mk 2024 6 9; Date.mk 2024 6 10 ].
Proof. reflexivity. Qed.

Example widget_defaults :
  default_date_range load_data = [Date.mk 2024 6 1; Date.mk 2024 6 10]
  /\ default_sources load_data = ["News"; "Reddit"]
  /\ default_products load_data
     = [ "DBS Bank India"; "DBS app"; "DBS net banking"; "DBS credit card";
         "DBS mobile banking"; "DBS digibank"; "DBS loan"; "DBS debit card" ].
Proof. repeat split; reflexivity. Qed.

(** C5, as stated, fails: the Reddit view is not the four negative records
    at positions 1, 3, 5 and 7, and its neutral count is not 0. *)
Lemma reddit_view_not_four_records :
  ~ (reddit_view = iloc [1; 3; 5; 7] load_data
     /\ negative_count reddit_view = 4
     /\ positive_count reddit_view = 0
     /\ neutral_count reddit_view = 0).
Proof.
  intros (_ & _ & _ & H). vm_compute in H. discriminate.
Qed.

(** C5, amended. The sample has 10 records, 5 positive, 4 negative and 1
    neutral, one per day from 2024-06-01.  Selecting the source Reddit
    alone, with every search term and the full date range, gives the 5
    records whose source is Reddit: those for 'DBS app', 'DBS credit card',
    'DBS Bank India' (angry), 'DBS loan' and 'DBS Bank India' (neutral).
    Their counts are 4 negative, 1 neutral and 0 positive. *)
Theorem reddit_view_five_records :
  List.length load_data = 10
  /\ positive_count load_data = 5
  /\ negative_count load_data = 4
  /\ neutral_count load_data = 1
  /\ map date load_data = Date.date_range (Date.mk 2024 6 1) 10
  /\ reddit_view = iloc [1; 3; 5; 7; 9] load_data
  /\ reddit_view = filter (fun r => String.eqb (source r) "Reddit") load_data
  /\ map (fun r => (search_term r, emotion r)) reddit_view
     = [ ("DBS app", "angry"); ("DBS credit card", "disappointed");
         ("DBS Bank India", "angry"); ("DBS loan", "disappointed");
         ("DBS Bank India", "neutral") ]
  /\ total_mentions reddit_view = 5
  /\ negative_count reddit_view = 4
  /\ neutral_count reddit_view = 1
  /\ positive_count reddit_view = 0.
Proof. repeat split; reflexivity. Qed.

(* ------------------------------------------------------------------ *)
(** ** Group-by tables *)

Section GroupByFacts.

Context {K : Type} (cmp : K -> K -> comparison) {O : CmpOrder cmp}.

Lemma cmp_refl (k : K) : cmp k k = Eq.
Proof. now apply cmp_eq_iff. Qed.

Lemma cmp_gt_lt (a b : K) : cmp a b = Gt -> cmp b a = Lt.
Proof. intros H. rewrite cmp_antisym, H. reflexivity. Qed.

Lemma bump_keys (k k0 : K) (rows : list (K * nat)) :
  In k (map fst (bump cmp k0 rows)) <-> k = k0 \/ In k (map fst rows).
Proof.
  induction rows as [|[k' c] rows IH]; simpl.
  - intuition.
  - destruct (cmp k0 k') eqn:E; simpl.
    + apply cmp_eq_iff in E. subst k'. intuition.
    + intuition.
    + rewrite IH. intuition.
Qed.

Lemma bump_sorted (k0 : K) (rows : list (K * nat)) :
  table_sorted cmp rows -> table_sorted cmp (bump cmp k0 rows).
Proof.
  unfold table_sorted.
  induction rows as [|[k' c] rows IH]; simpl; intros Hs.
  - constructor; constructor.
  - apply StronglySorted_inv in Hs. destruct Hs as [Hs Hall].
    destruct (cmp k0 k') eqn:E; simpl.
    + constructor; assumption.
    + constructor.
      * constructor; assumption.
      * constructor; [exact E|].
        eapply Forall_impl; [|exact Hall].
        intros k Hk. unfold key_lt in *. eapply cmp_lt_trans; eauto.
    + constructor; [now apply IH|].
      apply Forall_forall. intros k Hk.
      apply bump_keys in Hk. destruct Hk as [->|Hk].
      * now apply cmp_gt_lt.
      * rewrite Forall_forall in Hall. now apply Hall.
Qed.

Lemma bump_positive (k0 : K) (rows : list (K * nat)) :
  Forall (fun row => 0 < snd row) rows ->
  Forall (fun row => 0 < snd row) (bump cmp k0 rows).
Proof.
  induction 1 as [|[k' c] rows Hc Hrows IH]; simpl.
  - constructor; [simpl; lia|constructor].
  - simpl in Hc. destruct (cmp k0 k').
    + constructor; [simpl; lia|exact Hrows].
    + constructor; [simpl; lia|]. constructor; [exact Hc|exact Hrows].
    + constructor; [exact Hc|exact IH].
Qed.

Lemma bump_total (k0 : K) (rows : list (K * nat)) :
  total_count (bump cmp k0 rows) = S (total_count rows).
Proof.
  induction rows as [|[k' c] rows IH]; simpl; [reflexivity|].
  destruct (cmp k0 k'); simpl; [lia|lia|]. rewrite IH. lia.
Qed.

Lemma count_of_absent (k : K) (rows : list (K * nat)) :
  ~ In k (map fst rows) -> count_of cmp k rows = 0.
Proof.
  induction rows as [|[k' c] rows IH]; simpl; intros H; [reflexivity|].
  destruct (cmp k k') eqn:E.
  - apply cmp_eq_iff in E. subst k'. tauto.
  - apply IH. tauto.
  - apply IH. tauto.
Qed.

Lemma count_of_bump (k k0 : K) (rows : list (K * nat)) :
  table_sorted cmp rows ->
  count_of cmp k (bump cmp k0 rows)
  = match cmp k k0 with
    | Eq => S (count_of cmp k rows)
    | _ => count_of cmp k rows
    end.
Proof.
  unfold table_sorted.
  induction rows as [|[k' c] rows IH]; simpl; intros Hs.
  - destruct (cmp k k0); reflexivity.
  - apply StronglySorted_inv in Hs. destruct Hs as [Hs Hall].
    destruct (cmp k0 k') eqn:E0; simpl.
    + apply cmp_eq_iff in E0. subst k'.
      destruct (cmp k k0); reflexivity.
    + destruct (cmp k k0) eqn:E1; try reflexivity.
      apply cmp_eq_iff in E1. subst k0. rewrite E0.
      rewrite count_of_absent; [reflexivity|].
      intros Hin. rewrite Forall_forall in Hall.
      apply Hall in Hin. unfold key_lt in Hin.
      assert (cmp k k = Lt) by (eapply cmp_lt_trans; eauto).
      rewrite cmp_refl in H. discriminate.
    + destruct (cmp k k') eqn:E1.
      * apply cmp_eq_iff in E1. subst k'.
        rewrite (cmp_antisym k0 k), E0. reflexivity.
      * now apply IH.
      * now apply IH.
Qed.

Lemma count_of_In (k : K) (c : nat) (rows : list (K * nat)) :
  table_sorted cmp rows -> In (k, c) rows -> count_of cmp k rows = c.
Proof.
  unfold table_sorted.
  induction rows as [|[k' c'] rows IH]; simpl; intros Hs Hin; [tauto|].
  apply StronglySorted_inv in Hs. destruct Hs as [Hs Hall].
  destruct Hin as [[= -> ->]|Hin].
  - now rewrite cmp_refl.
  - destruct (cmp k k') eqn:E.
    + apply cmp_eq_iff in E. subst k'. exfalso.
      rewrite Forall_forall in Hall.
      assert (Hk : key_lt cmp k k) by (apply Hall; now apply (in_map fst _ (k, c))).
      unfold key_lt in Hk. rewrite cmp_refl in Hk. discriminate.
    + now apply IH.
    + now apply IH.
Qed.

Lemma sorted_NoDup (l : list K) : StronglySorted (key_lt cmp) l -> NoDup l.
Proof.
  induction 1 as [|k l Hs IH Hall]; constructor; [|exact IH].
  intros Hin. rewrite Forall_forall in Hall. apply Hall in Hin.
  unfold key_lt in Hin. rewrite cmp_refl in Hin. discriminate.
Qed.

Lemma groupby_size_sorted (keys : list K) :
  table_sorted cmp (groupby_size cmp keys).
Proof.
  induction keys as [|k keys IH]; simpl.
  - constructor.
  - now apply bump_sorted.
Qed.

Lemma groupby_size_keys (k : K) (keys : list K) :
  In k (map fst (groupby_size cmp keys)) <-> In k keys.
Proof.
  induction keys as [|k0 keys IH]; simpl; [tauto|].
  rewrite bump_keys, IH. intuition.
Qed.

Lemma groupby_size_positive (keys : list K) :
  Forall (fun row => 0 < snd row) (groupby_size cmp keys).
Proof.
  induction keys as [|k keys IH]; simpl.
  - constructor.
  - now apply bump_positive.
Qed.

Lemma groupby_size_total (keys : list K) :
  total_count (groupby_size cmp keys) = List.length keys.
Proof.
  induction keys as [|k keys IH]; simpl; [reflexivity|].
  now rewrite bump_total, IH.
Qed.

Lemma groupby_size_count (k : K) (keys : list K) :
  count_of cmp k (groupby_size cmp keys) = occurrences cmp k keys.
Proof.
  induction keys as [|k0 keys IH]; simpl; [reflexivity|].
  rewrite count_of_bump by apply groupby_size_sorted.
  rewrite IH. reflexivity.
Qed.

(** What [groupby_size] returns: a row per key that occurs, no key
    twice, rows in ascending key order, each with the number of
    occurrences of its key, which is positive; the counts add up to the
    number of keys. *)
Lemma groupby_size_spec (keys : list K) :
  NoDup (map fst (groupby_size cmp keys))
  /\ (forall k, In k (map fst (groupby_size cmp keys)) <-> In k keys)
  /\ Forall (fun row => 0 < snd row) (groupby_size cmp keys)
  /\ StronglySorted (key_lt cmp) (map fst (groupby_size cmp keys))
  /\ (forall k c, In (k, c) (groupby_size cmp keys) ->
        c = occurrences cmp k keys)
  /\ total_count (groupby_size cmp keys) = List.length keys.
Proof.
  split; [apply sorted_NoDup, groupby_size_sorted|].
  split; [intros k; apply groupby_size_keys|].
  split; [apply groupby_size_positive|].
  split; [apply groupby_size_sorted|].
  split; [|apply groupby_size_total].
  intros k c Hin. rewrite <- groupby_size_count.
  symmetry. apply count_of_In; [apply groupby_size_sorted|exact Hin].
Qed.

Lemma occurrences_map {R : Type} (key : R -> K) (k : K) (l : list R) :
  occurrences cmp k (map key l)
  = List.length (filter (fun r => match cmp k (key r) with
                                  | Eq => true
                                  | _ => false
                                  end) l).
Proof.
  induction l as [|r l IH]; simpl; [reflexivity|].
  destruct (cmp k (key r)); simpl; now rewrite IH.
Qed.

End GroupByFacts.

Lemma StronglySorted_impl {A : Type} (R1 R2 : A -> A -> Prop) (l : list A) :
  (forall a b, R1 a b -> R2 a b) -> StronglySorted R1 l -> StronglySorted R2 l.
Proof.
  intros H. induction 1 as [|a l Hs IH Hall]; constructor; [exact IH|].
  eapply Forall_impl; [|exact Hall]. intros b. apply H.
Qed.

Lemma In_map_key {R K : Type} (key : R -> K) (k : K) (l : list R) :
  In k (map key l) <-> exists r, In r l /\ key r = k.
Proof.
  rewrite in_map_iff. split; intros [r [H1 H2]]; exists r; tauto.
Qed.

(** C4. The time-series table has a row for a (date, sentiment) pair
    exactly when some record of the view has that date and sentiment, and
    no pair has two rows; the count of a row is the number of records of
    the view with its pair, so no count is 0; the rows are in ascending
    order of date and, within a date, of the sentiment string; the counts
    add up to the number of records of the view.  The product table is the
    same with the search term in place of the date. *)
Theorem groupby_tables_sparse_sorted_total :
  forall df : DataFrame,
    (NoDup (map fst (daily_sentiment df))
     /\ (forall d s,
           In (d, s) (map fst (daily_sentiment df)) <->
           exists r, In r df /\ date r = d /\ sentiment r = s)
     /\ Forall (fun row => 0 < snd row) (daily_sentiment df)
     /\ (forall d s c,
           In ((d, s), c) (daily_sentiment df) ->
           c = occurrences date_sentiment_compare (d, s)
                 (map (fun r => (date r, sentiment r)) df))
     /\ StronglySorted date_sentiment_lt (map fst (daily_sentiment df))
     /\ total_count (daily_sentiment df) = List.length df)
    /\
    (NoDup (map fst (product_sentiment df))
     /\ (forall t s,
           In (t, s) (map fst (product_sentiment df)) <->
           exists r, In r df /\ search_term r = t /\ sentiment r = s)
     /\ Forall (fun row => 0 < snd row) (product_sentiment df)
     /\ (forall t s c,
           In ((t, s), c) (product_sentiment df) ->
           c = occurrences term_sentiment_compare (t, s)
                 (map (fun r => (search_term r, sentiment r)) df))
     /\ StronglySorted term_sentiment_lt (map fst (product_sentiment df))
     /\ total_count (product_sentiment df) = List.length df).
Proof.
  intros df. split.
  - destruct (groupby_size_spec date_sentiment_compare
                (map (fun r => (date r, sentiment r)) df))
      as (Hnd & Hkeys & Hpos & Hsort & Hcnt & Htot).
    fold (daily_sentiment df) in *.
    split; [exact Hnd|]. split; [|split; [exact Hpos|]].
    + intros d s. rewrite Hkeys, In_map_key.
      split; intros [r [Hr E]]; exists r.
      * inversion E. tauto.
      * destruct E as [<- <-]. tauto.
    + split; [intros d s c; apply Hcnt|]. split.
      * eapply StronglySorted_impl; [|exact Hsort].
        intros a b. unfold key_lt, date_sentiment_compare, date_sentiment_lt.
        rewrite lex_compare_lt_iff by typeclasses eauto. tauto.
      * now rewrite Htot, length_map.
  - destruct (groupby_size_spec term_sentiment_compare
                (map (fun r => (search_term r, sentiment r)) df))
      as (Hnd & Hkeys & Hpos & Hsort & Hcnt & Htot).
    fold (product_sentiment df) in *.
    split; [exact Hnd|]. split; [|split; [exact Hpos|]].
    + intros t s. rewrite Hkeys, In_map_key.
      split; intros [r [Hr E]]; exists r.
      * inversion E. tauto.
      * destruct E as [<- <-]. tauto.
    + split; [intros t s c; apply Hcnt|]. split.
      * eapply StronglySorted_impl; [|exact Hsort].
        intros a b. unfold key_lt, term_sentiment_compare, term_sentiment_lt.
        rewrite lex_compare_lt_iff by typeclasses eauto. tauto.
      * now rewrite Htot, length_map.
Qed.

(** [occurrences] counts the records with the key. *)
Lemma occurrences_date_sentiment (d : Date.t) (s : string) (df : DataFrame) :
  occurrences date_sentiment_compare (d, s)
    (map (fun r => (date r, sentiment r)) df)
  = List.length
      (filter (fun r => match Date.compare d (date r) with
                        | Eq => String.eqb s (sentiment r)
                        | _ => false
                        end) df).
Proof.
  rewrite occurrences_map. f_equal. apply filter_ext. intros r.
  unfold date_sentiment_compare, lex_compare. simpl.
  destruct (Date.compare d (date r)); try reflexivity.
  destruct (String.eqb_spec s (sentiment r)) as [->|Hne].
  - now rewrite string_compare_refl.
  - destruct (String.compare s (sentiment r)) eqn:E; try reflexivity.
    apply String.compare_eq_iff in E. contradiction.
Qed.

Lemma occurrences_term_sentiment (t s : string) (df : DataFrame) :
  occurrences term_sentiment_compare (t, s)
    (map (fun r => (search_term r, sentiment r)) df)
  = List.length
      (filter (fun r => String.eqb t (search_term r)
                        && String.eqb s (sentiment r)) df).
Proof.
  rewrite occurrences_map. f_equal. apply filter_ext. intros r.
  unfold term_sentiment_compare, lex_compare. simpl.
  destruct (String.eqb_spec t (search_term r)) as [->|Hne].
  - rewrite string_compare_refl. simpl.
    destruct (String.eqb_spec s (sentiment r)) as [->|Hne].
    + now rewrite string_compare_refl.
    + destruct (String.compare s (sentiment r)) eqn:E; try reflexivity.
      apply String.compare_eq_iff in E. contradiction.
  - destruct (String.compare t (search_term r)) eqn:E; try reflexivity.
    apply String.compare_eq_iff in E. contradiction.
Qed.

(** The two tables of the full sample. *)
Example product_sentiment_sample :
  product_sentiment load_data
  = [ (("DBS Bank India", "negative"), 1); (("DBS Bank India", "neutral"), 1);
      (("DBS Bank India", "positive"), 1); (("DBS app", "negative"), 1);
      (("DBS credit card", "negative"), 1); (("DBS debit card", "positive"), 1);
      (("DBS digibank", "positive"), 1); (("DBS loan", "negative"), 1);
      (("DBS mobile banking", "positive"), 1);
      (("DBS net banking", "positive"), 1) ].
Proof. reflexivity. Qed.

Example daily_sentiment_sample :
  daily_sentiment load_data
  = map (fun r => ((date r, sentiment r), 1)) load_data.
Proof. reflexivity. Qed.

(* ------------------------------------------------------------------ *)
(** ** Top posts *)

Lemma StronglySorted_app_inv {A : Type} (R : A -> A -> Prop) (l1 l2 : list A) :
  StronglySorted R (l1 ++ l2) ->
  StronglySorted R l1
  /\ StronglySorted R l2
  /\ forall a b, In a l1 -> In b l2 -> R a b.
Proof.
  induction l1 as [|x l1 IH]; simpl; intros Hs.
  - split; [constructor|]. split; [exact Hs|]. intros a b [].
  - apply StronglySorted_inv in Hs. destruct Hs as [Hs Hall].
    destruct (IH Hs) as (H1 & H2 & H12).
    rewrite Forall_app in Hall. destruct Hall as [Hall1 Hall2].
    split; [now constructor|]. split; [exact H2|].
    intros a b [<-|Ha] Hb.
    + rewrite Forall_forall in Hall2. now apply Hall2.
    + now apply H12.
Qed.

Lemma filter_firstn_Prefix {A : Type} (f : A -> bool) (k : nat) (l : list A) :
  Prefix (filter f (firstn k l)) (filter f l).
Proof.
  exists (filter f (skipn k l)).
  now rewrite <- filter_app, firstn_skipn.
Qed.

Section SortFacts.

Variable before : MentionRecord -> MentionRecord -> bool.

Hypothesis before_total :
  forall a b, before a b = true \/ before b a = true.
Hypothesis before_trans :
  forall a b c, before a b = true -> before b c = true -> before a c = true.
(** Rows that may not be swapped have different polarities. *)
Hypothesis before_strict :
  forall a b q, before a b = false ->
    Qeq_bool (polarity a) q = true -> Qeq_bool (polarity b) q = false.

Lemma insert_row_perm (x : MentionRecord) (l : DataFrame) :
  Permutation (insert_row before x l) (x :: l).
Proof.
  induction l as [|y l IH]; simpl; [reflexivity|].
  destruct (before x y); [reflexivity|].
  rewrite IH. apply perm_swap.
Qed.

Lemma sort_rows_perm (l : DataFrame) : Permutation (sort_rows before l) l.
Proof.
  induction l as [|x l IH]; simpl; [reflexivity|].
  rewrite insert_row_perm. now constructor.
Qed.

Lemma insert_row_sorted (x : MentionRecord) (l : DataFrame) :
  sorted_by before l -> sorted_by before (insert_row before x l).
Proof.
  unfold sorted_by. induction l as [|y l IH]; simpl; intros Hs.
  - constructor; constructor.
  - apply StronglySorted_inv in Hs. destruct Hs as [Hs Hall].
    destruct (before x y) eqn:E.
    + constructor; [now constructor|].
      constructor; [exact E|].
      eapply Forall_impl; [|exact Hall].
      intros z Hz. simpl in Hz. eapply before_trans; eauto.
    + constructor; [now apply IH|].
      apply Forall_forall. intros z Hz.
      apply (Permutation_in _ (insert_row_perm x l)) in Hz.
      destruct Hz as [<-|Hz].
      * destruct (before_total x y) as [H|H]; congruence.
      * rewrite Forall_forall in Hall. now apply Hall.
Qed.

Lemma sort_rows_sorted (l : DataFrame) : sorted_by before (sort_rows before l).
Proof.
  induction l as [|x l IH]; simpl.
  - constructor.
  - now apply insert_row_sorted.
Qed.

Lemma with_polarity_insert (q : Q) (x : MentionRecord) (l : DataFrame) :
  with_polarity q (insert_row before x l) = with_polarity q (x :: l).
Proof.
  unfold with_polarity.
  induction l as [|y l IH]; simpl; [reflexivity|].
  destruct (before x y) eqn:E; [reflexivity|].
  simpl. rewrite IH. simpl.
  destruct (Qeq_bool (polarity x) q) eqn:Ex; [|reflexivity].
  now rewrite (before_strict x y q E Ex).
Qed.

(** The sort is stable: rows of one polarity keep their order. *)
Lemma with_polarity_sort (q : Q) (l : DataFrame) :
  with_polarity q (sort_rows before l) = with_polarity q l.
Proof.
  induction l as [|x l IH]; simpl; [reflexivity|].
  rewrite with_polarity_insert. unfold with_polarity in *. simpl.
  now rewrite IH.
Qed.

(** The first [k] rows of the sorted frame. *)
Lemma firstn_sort_rows_spec (k : nat) (l : DataFrame) :
  List.length (firstn k (sort_rows before l)) = Nat.min k (List.length l)
  /\ sorted_by before (firstn k (sort_rows before l))
  /\ Permutation
       (firstn k (sort_rows before l) ++ skipn k (sort_rows before l)) l
  /\ (forall a b,
        In a (firstn k (sort_rows before l)) ->
        In b (skipn k (sort_rows before l)) -> before a b = true)
  /\ (forall q,
        Prefix (with_polarity q (firstn k (sort_rows before l)))
          (with_polarity q l)).
Proof.
  pose proof (sort_rows_sorted l) as Hs. unfold sorted_by in Hs.
  rewrite <- (firstn_skipn k (sort_rows before l)) in Hs.
  apply StronglySorted_app_inv in Hs. destruct Hs as (H1 & _ & H12).
  split.
  { rewrite length_firstn. now rewrite (Permutation_length (sort_rows_perm l)). }
  split; [exact H1|].
  split; [rewrite firstn_skipn; apply sort_rows_perm|].
  split; [exact H12|].
  intros q. rewrite <- (with_polarity_sort q l).
  apply filter_firstn_Prefix.
Qed.

End SortFacts.

Lemma polarity_ge_total a b : polarity_ge a b = true \/ polarity_ge b a = true.
Proof.
  unfold polarity_ge. rewrite !Qle_bool_iff.
  destruct (Qlt_le_dec (polarity a) (polarity b)) as [H|H]; [|tauto].
  right. now apply Qlt_le_weak.
Qed.

Lemma polarity_ge_trans a b c :
  polarity_ge a b = true -> polarity_ge b c = true -> polarity_ge a c = true.
Proof.
  unfold polarity_ge. rewrite !Qle_bool_iff. intros H1 H2.
  eapply Qle_trans; eauto.
Qed.

Lemma polarity_ge_strict a b q :
  polarity_ge a b = false ->
  Qeq_bool (polarity a) q = true -> Qeq_bool (polarity b) q = false.
Proof.
  unfold polarity_ge. intros H Ha. apply not_true_is_false. intros Hb.
  apply Qeq_bool_iff in Ha, Hb.
  assert (Hle : (polarity b <= polarity a)%Q) by (rewrite Ha, Hb; apply Qle_refl).
  apply Qle_bool_iff in Hle. congruence.
Qed.

Lemma polarity_le_total a b : polarity_le a b = true \/ polarity_le b a = true.
Proof. apply (polarity_ge_total b a). Qed.

Lemma polarity_le_trans a b c :
  polarity_le a b = true -> polarity_le b c = true -> polarity_le a c = true.
Proof. intros H1 H2. apply (polarity_ge_trans c b a); assumption. Qed.

Lemma polarity_le_strict a b q :
  polarity_le a b = false ->
  Qeq_bool (polarity a) q = true -> Qeq_bool (polarity b) q = false.
Proof.
  unfold polarity_le. intros H Ha. apply not_true_is_false. intros Hb.
  apply Qeq_bool_iff in Ha, Hb.
  assert (Hle : (polarity a <= polarity b)%Q) by (rewrite Ha, Hb; apply Qle_refl).
  apply Qle_bool_iff in Hle. congruence.
Qed.

Lemma top_k_by_polarity_unfold records s k d :
  top_k_by_polarity records s k d
  = firstn k (sort_rows (before_of d) (filter (sentiment_is s) records)).
Proof. destruct d; reflexivity. Qed.

(** The records returned have the sentiment asked for. *)
Lemma top_k_by_polarity_sentiment records s k d :
  Forall (fun r => sentiment r = s) (top_k_by_polarity records s k d).
Proof.
  rewrite top_k_by_polarity_unfold. apply Forall_forall. intros r Hr.
  assert (Hin : In r (firstn k (sort_rows (before_of d)
                                   (filter (sentiment_is s) records))
                      ++ skipn k (sort_rows (before_of d)
                                    (filter (sentiment_is s) records))))
    by (apply in_or_app; now left).
  rewrite firstn_skipn in Hin. clear Hr. rename Hin into Hr.
  apply (Permutation_in _ (sort_rows_perm (before_of d) _)) in Hr.
  apply filter_In in Hr. now apply sentiment_is_iff.
Qed.


(** C7. On the full sample the three most negative records are those with
    polarity -0.7, -0.6 and -0.5, in this order: the records at positions
    1, 5 and 3. *)
Theorem top_negative_sample :
  map polarity (top_k_by_polarity load_data "negative" 3 dir_min)
  = [ (-0.7)%Q; (-0.6)%Q; (-0.5)%Q ]
  /\ top_k_by_polarity load_data "negative" 3 dir_min
     = iloc [1; 5; 3] load_data
  /\ negative_posts load_data
     = top_k_by_polarity load_data "negative" 3 dir_min.
Proof. repeat split; reflexivity. Qed.

(** The three most positive records of the full sample: 0.9, then the two
    records with 0.8 in the order of the frame. *)
Example top_positive_sample :
  positive_posts load_data = iloc [8; 0; 6] load_data.
Proof. reflexivity. Qed.

(* ------------------------------------------------------------------ *)
(** ** CSV export *)

Lemma append_assoc (a b c : string) :
  ((a ++ b) ++ c)%string = (a ++ (b ++ c))%string.
Proof. induction a as [|x a IH]; simpl; [reflexivity|now rewrite IH]. Qed.

Lemma append_nil_r (a : string) : (a ++ EmptyString)%string = a.
Proof. induction a as [|x a IH]; simpl; [reflexivity|now rewrite IH]. Qed.

Lemma snoc_append (cur : string) (c : ascii) (s : string) :
  (Csv.snoc cur c ++ s)%string = (cur ++ String c s)%string.
Proof. unfold Csv.snoc. now rewrite append_assoc. Qed.

Lemma special_false (c : ascii) :
  Csv.special c = false ->
  Ascii.eqb c Csv.delimiter = false /\ Ascii.eqb c Csv.quotechar = false
  /\ Ascii.eqb c Csv.LF = false.
Proof.
  unfold Csv.special. rewrite !orb_false_iff. tauto.
Qed.

Lemma read_unquoted (s cur : string) row rows rest :
  Csv.needs_quoting s = false ->
  Csv.read_rows Csv.InField cur row rows (s ++ rest)%string
  = Csv.read_rows Csv.InField (cur ++ s)%string row rows rest.
Proof.
  revert cur. induction s as [|c s IH]; intros cur Hq.
  - cbn [append]. now rewrite append_nil_r.
  - cbn [Csv.needs_quoting] in Hq.
    apply orb_false_iff in Hq. destruct Hq as [Hc Hq].
    apply special_false in Hc. destruct Hc as (Hd & _ & Hl).
    cbn [append Csv.read_rows]. rewrite Hd, Hl.
    rewrite IH by exact Hq. now rewrite snoc_append.
Qed.

Lemma read_quoted (s cur : string) row rows rest :
  Csv.read_rows Csv.InQuoted cur row rows
    (Csv.double_quotes s ++ String Csv.quotechar rest)%string
  = Csv.read_rows Csv.QuoteInQuoted (cur ++ s)%string row rows rest.
Proof.
  revert cur. induction s as [|c s IH]; intros cur.
  - cbn [Csv.double_quotes append Csv.read_rows].
    rewrite Ascii.eqb_refl. now rewrite append_nil_r.
  - cbn [Csv.double_quotes].
    destruct (Ascii.eqb c Csv.quotechar) eqn:E;
      cbn [append Csv.read_rows]; rewrite E.
    + rewrite IH. now rewrite snoc_append.
    + rewrite IH. now rewrite snoc_append.
Qed.

Lemma read_closing (sep : ascii) (s : string) row rows rest :
  Csv.separator sep ->
  Csv.read_rows Csv.QuoteInQuoted s row rows (String sep rest)
  = Csv.after_field sep s row rows rest.
Proof. intros [->| ->]; reflexivity. Qed.

Lemma read_separator (sep : ascii) (s : string) row rows rest :
  Csv.separator sep ->
  Csv.read_rows Csv.InField s row rows (String sep rest)
  = Csv.after_field sep s row rows rest.
Proof. intros [->| ->]; reflexivity. Qed.

Lemma read_empty_field (sep : ascii) row rows rest :
  Csv.separator sep ->
  Csv.read_rows Csv.StartField EmptyString row rows (String sep rest)
  = Csv.after_field sep EmptyString row rows rest.
Proof. intros [->| ->]; reflexivity. Qed.

(** Reading a written field gives the field back, whatever its text. *)
Lemma read_field (sep : ascii) (s : string) row rows rest :
  Csv.separator sep ->
  Csv.read_rows Csv.StartField EmptyString row rows
    (Csv.write_field s ++ String sep rest)%string
  = Csv.after_field sep s row rows rest.
Proof.
  intros Hsep. unfold Csv.write_field.
  destruct (Csv.needs_quoting s) eqn:Hq.
  - cbn [append Csv.read_rows]. rewrite Ascii.eqb_refl.
    rewrite append_assoc. cbn [append].
    rewrite read_quoted. cbn [append]. now apply read_closing.
  - destruct s as [|c s].
    + cbn [append]. now apply read_empty_field.
    + cbn [Csv.needs_quoting] in Hq.
      apply orb_false_iff in Hq. destruct Hq as [Hc Hq].
      apply special_false in Hc. destruct Hc as (Hd & Hqc & Hl).
      cbn [append Csv.read_rows]. rewrite Hqc, Hd, Hl.
      rewrite read_unquoted by exact Hq. cbn [append].
      now apply read_separator.
Qed.

Lemma read_row (cells : list string) row rows rest :
  cells <> [] ->
  Csv.read_rows Csv.StartField EmptyString row rows
    (Csv.write_row cells ++ rest)%string
  = Csv.read_rows Csv.StartField EmptyString []
      (rev (rev cells ++ row) :: rows) rest.
Proof.
  revert row. induction cells as [|c cells IH]; intros row Hne; [congruence|].
  destruct cells as [|c2 cells].
  - simpl. rewrite append_assoc. simpl.
    rewrite read_field by (right; reflexivity). reflexivity.
  - change (Csv.write_row (c :: c2 :: cells))
      with (Csv.write_field c
            ++ String Csv.delimiter (Csv.write_row (c2 :: cells)))%string.
    rewrite append_assoc. simpl append at 2.
    rewrite read_field by (left; reflexivity).
    unfold Csv.after_field. rewrite Ascii.eqb_refl.
    rewrite IH by discriminate.
    simpl. now rewrite <- !app_assoc.
Qed.

Lemma read_write_rows (rws : list (list string)) rows :
  Forall (fun cells => cells <> []) rws ->
  Csv.read_rows Csv.StartField EmptyString [] rows (Csv.write_rows rws)
  = Some (rev rows ++ rws).
Proof.
  intros H. revert rows. induction H as [|cells rws Hne _ IH]; intros rows.
  - simpl. now rewrite app_nil_r.
  - simpl. rewrite read_row by exact Hne.
    rewrite IH. simpl. rewrite app_nil_r, rev_involutive.
    now rewrite <- app_assoc.
Qed.

(** The reader inverts the writer on every table without an empty row. *)
Lemma parse_write_rows (rws : list (list string)) :
  Forall (fun cells => cells <> []) rws ->
  Csv.parse (Csv.write_rows rws) = Some rws.
Proof. intros H. unfold Csv.parse. now rewrite read_write_rows. Qed.

Section CsvRoundTrip.

Variable fmt_float : Q -> string.
Variable fmt_date : Date.t -> string.
Variable parse_float : string -> option Q.
Variable parse_date : string -> option Date.t.

Lemma parse_to_csv (df : DataFrame) :
  Csv.parse (Csv.to_csv fmt_float fmt_date df)
  = Some (Csv.columns :: map (Csv.cells_of fmt_float fmt_date) df).
Proof.
  unfold Csv.to_csv. apply parse_write_rows.
  constructor; [discriminate|].
  apply Forall_forall. intros cells Hin.
  apply in_map_iff in Hin. destruct Hin as [r [<- _]]. discriminate.
Qed.

Lemma record_of_cells_of (r : MentionRecord) :
  Csv.codec_ok fmt_float fmt_date parse_float parse_date r ->
  Csv.record_of parse_float parse_date (Csv.cells_of fmt_float fmt_date r)
  = Some r.
Proof.
  intros [Hf Hd]. unfold Csv.record_of, Csv.cells_of.
  rewrite Hf, Hd. now destruct r.
Qed.

Lemma read_csv_to_csv (df : DataFrame) :
  Forall (Csv.codec_ok fmt_float fmt_date parse_float parse_date) df ->
  Csv.read_csv parse_float parse_date (Csv.to_csv fmt_float fmt_date df)
  = Some df.
Proof.
  intros Hok. unfold Csv.read_csv. rewrite parse_to_csv.
  destruct (list_eq_dec string_dec Csv.columns Csv.columns) as [_|Hne];
    [|congruence].
  induction Hok as [|r df Hr _ IH]; cbn [map Csv.traverse]; [reflexivity|].
  rewrite record_of_cells_of by exact Hr.
  rewrite IH. reflexivity.
Qed.

End CsvRoundTrip.


Lemma load_data_codec_ok :
  Forall (Csv.codec_ok Csv.repr_tenths Csv.isoformat
            Csv.float_of_tenths Csv.fromisoformat) load_data.
Proof. repeat (constructor; [split; reflexivity|]). constructor. Qed.


Lemma number_of_pad2 (n : nat) :
  n < 100 -> Csv.number_of 0 (Csv.pad2 n) = Some n.
Proof.
  intros Hn.
  assert (H : Csv.reads_back Csv.pad2 n = true).
  { apply (forallb_below _ 100); [vm_compute; reflexivity|exact Hn]. }
  unfold Csv.reads_back in H.
  destruct (Csv.number_of 0 (Csv.pad2 n)) as [m|]; [|discriminate].
  apply Nat.eqb_eq in H. now subst.
Qed.

Lemma number_of_pad4 (n : nat) :
  n < 100 * 100 -> Csv.number_of 0 (Csv.pad4 n) = Some n.
Proof.
  intros Hn.
  assert (H : Csv.reads_back Csv.pad4 n = true).
  { apply (forallb_below _ (100 * 100)); [vm_compute; reflexivity|exact Hn]. }
  unfold Csv.reads_back in H.
  destruct (Csv.number_of 0 (Csv.pad4 n)) as [m|]; [|discriminate].
  apply Nat.eqb_eq in H. now subst.
Qed.

(** An ISO date reads back as the date it was written from. *)
Lemma fromisoformat_isoformat (d : Date.t) :
  Date.year d < 100 * 100 -> Date.month d < 100 -> Date.day d < 100 ->
  Csv.fromisoformat (Csv.isoformat d) = Some d.
Proof.
  intros Hy Hm Hd. unfold Csv.fromisoformat.
  change (substring 0 4 (Csv.isoformat d)) with (Csv.pad4 (Date.year d)).
  change (substring 5 2 (Csv.isoformat d)) with (Csv.pad2 (Date.month d)).
  change (substring 8 2 (Csv.isoformat d)) with (Csv.pad2 (Date.day d)).
  rewrite number_of_pad4, !number_of_pad2 by assumption.
  destruct d as [y m dd]. cbn [Date.year Date.month Date.day].
  now rewrite String.eqb_refl.
Qed.

(** A polarity in tenths reads back as written. *)
Lemma float_of_tenths_repr (n : Z) :
  (-100 < n < 100)%Z ->
  Csv.float_of_tenths (Csv.repr_tenths (Qmake n 10)) = Some (Qmake n 10).
Proof.
  intros Hn.
  assert (H : Csv.tenths_read_back (Z.to_nat (n + 99)) = true).
  { apply (forallb_below _ 199); [vm_compute; reflexivity|lia]. }
  unfold Csv.tenths_read_back in H.
  replace (Z.of_nat (Z.to_nat (n + 99)) - 99)%Z with n in H by lia.
  destruct (Csv.float_of_tenths (Csv.repr_tenths (Qmake n 10))) as [[a b]|];
    [|discriminate].
  apply andb_true_iff in H. destruct H as [Ha Hb]. cbn [Qnum Qden] in Ha, Hb.
  apply Z.eqb_eq in Ha. apply Pos.eqb_eq in Hb. now subst.
Qed.

Lemma printable_codec_ok (r : MentionRecord) :
  Csv.printable r ->
  Csv.codec_ok Csv.repr_tenths Csv.isoformat
    Csv.float_of_tenths Csv.fromisoformat r.
Proof.
  intros ((n & Hn & Hq) & Hy & Hm & Hd). split.
  - rewrite Hq. now apply float_of_tenths_repr.
  - now apply fromisoformat_isoformat.
Qed.

(** Records in tenths with four-digit years survive the export, whatever
    their text fields hold. *)
Lemma csv_round_trip_printable (df : DataFrame) :
  Forall Csv.printable df ->
  Csv.read_csv Csv.float_of_tenths Csv.fromisoformat
    (Csv.to_csv Csv.repr_tenths Csv.isoformat df)
  = Some df.
Proof.
  intros H. apply read_csv_to_csv.
  eapply Forall_impl; [|exact H]. exact printable_codec_ok.
Qed.

(** Every view of the sample survives the export: written with one decimal
    digit and ISO dates, it reads back unchanged. *)
Lemma csv_round_trip_views (date_range : list Date.t)
    (sources products : list string) :
  Csv.read_csv Csv.float_of_tenths Csv.fromisoformat
    (Csv.to_csv Csv.repr_tenths Csv.isoformat
       (df_filtered load_data date_range sources products))
  = Some (df_filtered load_data date_range sources products).
Proof.
  apply read_csv_to_csv.
  apply (Forall_Subseq _ _ load_data);
    [apply df_filtered_Subseq|exact load_data_codec_ok].
Qed.

(** A field with a comma, a quote and a line end in it is written in
    quotes and read back unchanged. *)
Example quoted_field_round_trip :
  let s := String "a" (String "," (String Csv.quotechar
             (String Csv.LF (String "b" EmptyString)))) in
  Csv.needs_quoting s = true
  /\ Csv.parse (Csv.write_rows [[s; "x"]]) = Some [[s; "x"]].
Proof. split; reflexivity. Qed.

(* ================================================================== *)
(** * Further properties of the program *)

(* ------------------------------------------------------------------ *)
(** ** The order of dates *)

Lemma date_lt_iff (a b : Date.t) :
  date_lt a b <->
  Date.year a < Date.year b
  \/ (Date.year a = Date.year b /\ Date.month a < Date.month b)
  \/ (Date.year a = Date.year b /\ Date.month a = Date.month b
      /\ Date.day a < Date.day b).
Proof.
  unfold date_lt, Date.compare, lex_compare. simpl.
  destruct (Nat.compare_spec (Date.year a) (Date.year b));
    destruct (Nat.compare_spec (Date.month a) (Date.month b));
    destruct (Nat.compare_spec (Date.day a) (Date.day b));
    split; intros; try congruence; try lia.
Qed.

Lemma date_le_refl (a : Date.t) : Date.le a a.
Proof. apply date_le_iff. lia. Qed.

Lemma date_le_trans (a b c : Date.t) :
  Date.le a b -> Date.le b c -> Date.le a c.
Proof. rewrite !date_le_iff. lia. Qed.

Lemma date_le_total (a b : Date.t) : Date.le a b \/ Date.le b a.
Proof. rewrite !date_le_iff. lia. Qed.

Lemma date_lt_not_le (a b : Date.t) : date_lt a b -> ~ Date.le b a.
Proof. rewrite date_lt_iff, date_le_iff. lia. Qed.

Lemma date_min_le (a b : Date.t) :
  Date.le (date_min a b) a /\ Date.le (date_min a b) b.
Proof.
  unfold date_min. destruct (Date.leb a b) eqn:E.
  - apply date_leb_le in E. split; [apply date_le_refl|exact E].
  - split; [|apply date_le_refl].
    destruct (date_le_total a b) as [H|H]; [|exact H].
    apply date_leb_le in H. congruence.
Qed.

Lemma date_max_ge (a b : Date.t) :
  Date.le a (date_max a b) /\ Date.le b (date_max a b).
Proof.
  unfold date_max. destruct (Date.leb a b) eqn:E.
  - apply date_leb_le in E. split; [exact E|apply date_le_refl].
  - split; [apply date_le_refl|].
    destruct (date_le_total a b) as [H|H]; [|exact H].
    apply date_leb_le in H. congruence.
Qed.

Lemma fold_date_min_le (ds : list Date.t) (d x : Date.t) :
  In x (d :: ds) -> Date.le (fold_left date_min ds d) x.
Proof.
  revert d x. induction ds as [|e ds IH]; simpl; intros d x Hin.
  - destruct Hin as [<-|[]]. apply date_le_refl.
  - destruct Hin as [<-|[<-|Hin]].
    + apply (date_le_trans _ (date_min d e)).
      * apply IH. now left.
      * apply date_min_le.
    + apply (date_le_trans _ (date_min d e)).
      * apply IH. now left.
      * apply date_min_le.
    + apply IH. now right.
Qed.

Lemma fold_date_max_ge (ds : list Date.t) (d x : Date.t) :
  In x (d :: ds) -> Date.le x (fold_left date_max ds d).
Proof.
  revert d x. induction ds as [|e ds IH]; simpl; intros d x Hin.
  - destruct Hin as [<-|[]]. apply date_le_refl.
  - destruct Hin as [<-|[<-|Hin]].
    + apply (date_le_trans _ (date_max d e)).
      * apply date_max_ge.
      * apply IH. now left.
    + apply (date_le_trans _ (date_max d e)).
      * apply date_max_ge.
      * apply IH. now left.
    + apply IH. now right.
Qed.

(* ------------------------------------------------------------------ *)
(** ** The widgets and the filter *)

Lemma Subseq_refl {A : Type} (l : list A) : Subseq l l.
Proof. induction l; constructor; assumption. Qed.

Lemma Subseq_trans {A : Type} (l1 l2 l3 : list A) :
  Subseq l1 l2 -> Subseq l2 l3 -> Subseq l1 l3.
Proof.
  intros H12 H23. revert l1 H12.
  induction H23 as [|x l2 l3 _ IH|x l2 l3 _ IH]; intros l1 H12.
  - exact H12.
  - inversion H12; subst.
    + constructor. now apply IH.
    + apply Subseq_drop. now apply IH.
  - apply Subseq_drop. now apply IH.
Qed.

Lemma Subseq_In_elem {A : Type} (l1 l2 : list A) (x : A) :
  Subseq l1 l2 -> In x l1 -> In x l2.
Proof.
  induction 1 as [|y l1 l2 _ IH|y l1 l2 _ IH]; simpl; intuition.
Qed.

Lemma filter_all_true {A : Type} (f : A -> bool) (l : list A) :
  (forall x, In x l -> f x = true) -> filter f l = l.
Proof.
  induction l as [|x l IH]; simpl; intros H; [reflexivity|].
  rewrite (H x) by now left. f_equal. apply IH. intros y Hy. apply H. now right.
Qed.

Lemma filter_idem {A : Type} (f : A -> bool) (l : list A) :
  filter f (filter f l) = filter f l.
Proof.
  apply filter_all_true. intros x Hx. now apply filter_In in Hx.
Qed.

Lemma Subseq_filter_impl {A : Type} (f g : A -> bool) (l : list A) :
  (forall x, f x = true -> g x = true) ->
  Subseq (filter f l) (filter g l).
Proof.
  intros H. induction l as [|x l IH]; simpl; [constructor|].
  destruct (f x) eqn:Ef.
  - rewrite (H x Ef). now constructor.
  - destruct (g x); [now apply Subseq_drop|exact IH].
Qed.

Lemma unique_In (x : string) (l : list string) : In x (unique l) <-> In x l.
Proof.
  induction l as [|y l IH]; simpl; [tauto|].
  rewrite filter_In, IH, negb_true_iff, String.eqb_neq.
  destruct (string_dec y x); intuition congruence.
Qed.

(** X1. [unique] lists every value of a column once, in the order of the
    column: the options of a multi-select are the sources (or search terms)
    of the frame, none twice and none missing. *)
Theorem unique_lists_each_value_once :
  forall l : list string,
    NoDup (unique l)
    /\ (forall x, In x (unique l) <-> In x l)
    /\ Subseq (unique l) l.
Proof.
  intros l. split; [|split].
  - induction l as [|y l IH]; simpl; [constructor|].
    constructor.
    + rewrite filter_In, negb_true_iff, String.eqb_neq. tauto.
    + now apply NoDup_filter.
  - intros x. apply unique_In.
  - induction l as [|y l IH]; simpl; constructor.
    eapply Subseq_trans; [apply Subseq_filter|exact IH].
Qed.

(** X2. With the three widgets left at their defaults (the first and the
    last date of the frame, every source, every search term) the view of a
    frame that is not empty is the whole frame. *)
Theorem default_selection_shows_everything :
  forall df : DataFrame,
    df <> [] ->
    df_filtered df (default_date_range df) (default_sources df)
      (default_products df)
    = df.
Proof.
  intros df Hne. destruct df as [|r0 rest]; [congruence|].
  unfold default_date_range, default_sources, default_products.
  cbn [map df_filtered].
  apply filter_all_true. intros r Hr.
  apply mask_dated_iff. repeat split.
  - apply fold_date_min_le. change (In (date r) (map date (r0 :: rest))).
    now apply in_map.
  - apply fold_date_max_ge. change (In (date r) (map date (r0 :: rest))).
    now apply in_map.
  - apply unique_In. change (In (source r) (map source (r0 :: rest))).
    now apply in_map.
  - apply unique_In.
    change (In (search_term r) (map search_term (r0 :: rest))).
    now apply in_map.
Qed.

Lemma default_selection_shows_everything_witness :
  load_data <> []
  /\ df_filtered load_data (default_date_range load_data)
       (default_sources load_data) (default_products load_data)
     = load_data.
Proof.
  split; [discriminate|].
  apply (default_selection_shows_everything load_data). discriminate.
Defined.

(** X3. A date range whose end lies before its start shows nothing,
    whatever the frame, the sources and the search terms. *)
Theorem reversed_date_range_shows_nothing :
  forall (df : DataFrame) (d0 d1 : Date.t) (sources products : list string),
    date_lt d1 d0 ->
    df_filtered df [d0; d1] sources products = [].
Proof.
  intros df d0 d1 sources products Hlt. cbn [df_filtered].
  apply filter_all_false. intros r. apply not_true_is_false.
  rewrite mask_dated_iff. intros [[H0 H1] _].
  apply (date_lt_not_le _ _ Hlt). now apply (date_le_trans _ (date r)).
Qed.

Lemma reversed_date_range_shows_nothing_witness :
  date_lt (Date.mk 2024 6 2) (Date.mk 2024 6 9)
  /\ df_filtered load_data [Date.mk 2024 6 9; Date.mk 2024 6 2]
       (default_sources load_data) (default_products load_data)
     = [].
Proof.
  split; [reflexivity|].
  apply (reversed_date_range_shows_nothing load_data
           (Date.mk 2024 6 9) (Date.mk 2024 6 2)).
  reflexivity.
Defined.

(** X4. Filtering a view again with the selection that produced it changes
    nothing. *)
Theorem filter_twice_is_filter_once :
  forall (df : DataFrame) (date_range : list Date.t)
         (sources products : list string),
    df_filtered (df_filtered df date_range sources products)
      date_range sources products
    = df_filtered df date_range sources products.
Proof.
  intros df date_range sources products.
  destruct date_range as [|d0 [|d1 [|d2 rest]]]; cbn [df_filtered];
    apply filter_idem.
Qed.

Lemma isin_same_elements (x : string) (l l' : list string) :
  (forall y, In y l <-> In y l') -> isin x l = isin x l'.
Proof.
  intros H. apply eq_true_iff_eq. rewrite !isin_In. apply H.
Qed.

(** X5. The view depends on which sources and search terms are selected,
    not on the order in which they were selected nor on repetitions. *)
Theorem selection_order_is_irrelevant :
  forall (df : DataFrame) (date_range : list Date.t)
         (sources sources' products products' : list string),
    (forall x, In x sources <-> In x sources') ->
    (forall x, In x products <-> In x products') ->
    df_filtered df date_range sources products
    = df_filtered df date_range sources' products'.
Proof.
  intros df date_range sources sources' products products' Hs Hp.
  destruct date_range as [|d0 [|d1 [|d2 rest]]]; cbn [df_filtered];
    apply filter_ext; intros r; unfold mask_dated, mask_undated;
    now rewrite (isin_same_elements _ _ _ Hs), (isin_same_elements _ _ _ Hp).
Qed.

Lemma selection_order_is_irrelevant_witness :
  (forall x, In x ["News"; "Reddit"] <-> In x ["Reddit"; "News"; "Reddit"])
  /\ (forall x, In x ["DBS app"] <-> In x ["DBS app"; "DBS app"])
  /\ df_filtered load_data [] ["News"; "Reddit"] ["DBS app"]
     = df_filtered load_data [] ["Reddit"; "News"; "Reddit"]
         ["DBS app"; "DBS app"].
Proof.
  assert (Hs : forall x, In x ["News"; "Reddit"]
                         <-> In x ["Reddit"; "News"; "Reddit"])
    by (intros x; simpl; tauto).
  assert (Hp : forall x, In x ["DBS app"] <-> In x ["DBS app"; "DBS app"])
    by (intros x; simpl; tauto).
  split; [exact Hs|]. split; [exact Hp|].
  exact (selection_order_is_irrelevant load_data [] _ _ _ _ Hs Hp).
Defined.

(** X6. Selecting more sources or more search terms never removes a
    record: the smaller selection gives a subsequence of the view of the
    larger one; and a date range only removes records from the view
    without one. *)
Theorem wider_selection_wider_view :
  forall (df : DataFrame) (date_range : list Date.t)
         (sources sources' products products' : list string),
    incl sources sources' ->
    incl products products' ->
    Subseq (df_filtered df date_range sources products)
      (df_filtered df date_range sources' products')
    /\ Subseq (df_filtered df date_range sources products)
         (df_filtered df [] sources' products').
Proof.
  intros df date_range sources sources' products products' Hs Hp.
  assert (Hu : forall r, mask_undated sources products r = true ->
                         mask_undated sources' products' r = true).
  { intros r. rewrite !mask_undated_iff. intros [H1 H2].
    split; [now apply Hs|now apply Hp]. }
  assert (Hd : forall d0 d1 r, mask_dated d0 d1 sources products r = true ->
                               mask_dated d0 d1 sources' products' r = true).
  { intros d0 d1 r. rewrite !mask_dated_iff. intros (H0 & H1 & H2).
    split; [exact H0|]. split; [now apply Hs|now apply Hp]. }
  assert (Hdu : forall d0 d1 r, mask_dated d0 d1 sources products r = true ->
                                mask_undated sources' products' r = true).
  { intros d0 d1 r. rewrite mask_dated_iff, mask_undated_iff.
    intros (_ & H1 & H2). split; [now apply Hs|now apply Hp]. }
  destruct date_range as [|d0 [|d1 [|d2 rest]]]; cbn [df_filtered]; split;
    apply Subseq_filter_impl;
    first [exact Hu | exact (Hd _ _) | exact (Hdu _ _)].
Qed.

Lemma wider_selection_wider_view_witness :
  incl ["Reddit"] ["News"; "Reddit"]
  /\ incl ["DBS app"] ["DBS app"; "DBS loan"]
  /\ Subseq
       (df_filtered load_data [Date.mk 2024 6 1; Date.mk 2024 6 5]
          ["Reddit"] ["DBS app"])
       (df_filtered load_data [Date.mk 2024 6 1; Date.mk 2024 6 5]
          ["News"; "Reddit"] ["DBS app"; "DBS loan"]).
Proof.
  assert (Hs : incl ["Reddit"] ["News"; "Reddit"])
    by (intros x; simpl; tauto).
  assert (Hp : incl ["DBS app"] ["DBS app"; "DBS loan"])
    by (intros x; simpl; tauto).
  split; [exact Hs|]. split; [exact Hp|].
  exact (proj1 (wider_selection_wider_view load_data
                  [Date.mk 2024 6 1; Date.mk 2024 6 5] _ _ _ _ Hs Hp)).
Defined.

(* ------------------------------------------------------------------ *)
(** ** The metric cards *)

Lemma share_bounds (count total : nat) :
  0 < total -> count <= total ->
  (0 <= share count total)%Q /\ (share count total <= 100)%Q.
Proof.
  intros Ht Hc. unfold share.
  destruct total as [|t]; [lia|].
  unfold Qle, Qdiv, Qmult, Qinv, inject_Z.
  cbn [Z.of_nat Qnum Qden].
  rewrite Pos.mul_1_l, Pos.mul_1_r, Zpos_P_of_succ_nat. split; lia.
Qed.

Lemma filter_length_le {A : Type} (f : A -> bool) (l : list A) :
  List.length (filter f l) <= List.length l.
Proof. induction l as [|x l IH]; simpl; [lia|]. destruct (f x); simpl; lia. Qed.

(** X7. Whatever the records hold, the three percentages are computed
    without an error and each lies between 0 and 100. *)
Theorem percentages_between_0_and_100 :
  forall df : DataFrame,
    exists p n u : Q,
      positive_pct df = Some p /\ negative_pct df = Some n
      /\ neutral_pct df = Some u
      /\ (0 <= p <= 100)%Q /\ (0 <= n <= 100)%Q /\ (0 <= u <= 100)%Q.
Proof.
  intros df. unfold positive_pct, negative_pct, neutral_pct.
  rewrite !percentage_value. do 3 eexists.
  split; [reflexivity|]. split; [reflexivity|]. split; [reflexivity|].
  unfold total_mentions, positive_count, negative_count, neutral_count.
  destruct (Nat.ltb_spec 0 (List.length df)) as [Hpos|_].
  - repeat split; apply share_bounds; auto using filter_length_le.
  - repeat split; discriminate.
Qed.

(** X8. A record is counted by at most one card, so the three counts never
    exceed the total; they add up to the total exactly when the sentiment
    of every record is one of positive, negative and neutral. *)
Theorem cards_count_each_record_at_most_once :
  forall df : DataFrame,
    positive_count df + negative_count df + neutral_count df
    <= total_mentions df
    /\ (positive_count df + negative_count df + neutral_count df
        = total_mentions df
        <-> Forall (fun r => sentiment_class (sentiment r)) df).
Proof.
  unfold positive_count, negative_count, neutral_count, total_mentions.
  induction df as [|r df [IHle IHeq]]; simpl.
  - split; [lia|]. split; [constructor|reflexivity].
  - assert (E : forall s, sentiment_is s r = String.eqb (sentiment r) s)
      by reflexivity.
    rewrite !E.
    destruct (String.eqb_spec (sentiment r) "positive") as [Hp|Hp];
      destruct (String.eqb_spec (sentiment r) "negative") as [Hn|Hn];
      destruct (String.eqb_spec (sentiment r) "neutral") as [Hu|Hu];
      try congruence; simpl.
    + split; [lia|]. rewrite Forall_cons_iff, <- IHeq.
      unfold sentiment_class. split; [intros; split; [tauto|lia]|lia].
    + split; [lia|]. rewrite Forall_cons_iff, <- IHeq.
      unfold sentiment_class. split; [intros; split; [tauto|lia]|lia].
    + split; [lia|]. rewrite Forall_cons_iff, <- IHeq.
      unfold sentiment_class. split; [intros; split; [tauto|lia]|lia].
    + split; [lia|]. rewrite Forall_cons_iff.
      unfold sentiment_class. split; [lia|tauto].
Qed.

Lemma binary64_percentages_add_up_witness :
  0 < total_mentions
        (df_filtered load_data [Date.mk 2024 6 1; Date.mk 2024 6 3]
           ["News"; "Reddit"] (default_products load_data))
  /\ Binary64.near_100
       (Binary64.sum3
          (Binary64.percentage
             (positive_count
                (df_filtered load_data [Date.mk 2024 6 1; Date.mk 2024 6 3]
                   ["News"; "Reddit"] (default_products load_data)))
             (total_mentions
                (df_filtered load_data [Date.mk 2024 6 1; Date.mk 2024 6 3]
                   ["News"; "Reddit"] (default_products load_data))))
          (Binary64.percentage
             (negative_count
                (df_filtered load_data [Date.mk 2024 6 1; Date.mk 2024 6 3]
                   ["News"; "Reddit"] (default_products load_data)))
             (total_mentions
                (df_filtered load_data [Date.mk 2024 6 1; Date.mk 2024 6 3]
                   ["News"; "Reddit"] (default_products load_data))))
          (Binary64.percentage
             (neutral_count
                (df_filtered load_data [Date.mk 2024 6 1; Date.mk 2024 6 3]
                   ["News"; "Reddit"] (default_products load_data)))
             (total_mentions
                (df_filtered load_data [Date.mk 2024 6 1; Date.mk 2024 6 3]
                   ["News"; "Reddit"] (default_products load_data)))))
     = true.
Proof.
  split; [vm_compute; lia|].
  apply (binary64_percentages_add_up [Date.mk 2024 6 1; Date.mk 2024 6 3]
           ["News"; "Reddit"] (default_products load_data)).
  vm_compute; lia.
Defined.

(* ------------------------------------------------------------------ *)
(** ** The pie charts *)

Section InsertionSortFacts.

Context {A : Type} (before : A -> A -> bool).

Hypothesis before_total :
  forall a b, before a b = true \/ before b a = true.
Hypothesis before_trans :
  forall a b c, before a b = true -> before b c = true -> before a c = true.

Lemma insert_sorted_perm (x : A) (l : list A) :
  Permutation (insert_sorted before x l) (x :: l).
Proof.
  induction l as [|y l IH]; simpl; [reflexivity|].
  destruct (before x y); [reflexivity|].
  rewrite IH. apply perm_swap.
Qed.

Lemma stable_sort_perm (l : list A) : Permutation (stable_sort before l) l.
Proof.
  induction l as [|x l IH]; simpl; [reflexivity|].
  rewrite insert_sorted_perm. now constructor.
Qed.

Lemma insert_sorted_sorted (x : A) (l : list A) :
  StronglySorted (fun a b => before a b = true) l ->
  StronglySorted (fun a b => before a b = true) (insert_sorted before x l).
Proof.
  induction l as [|y l IH]; simpl; intros Hs.
  - constructor; constructor.
  - apply StronglySorted_inv in Hs. destruct Hs as [Hs Hall].
    destruct (before x y) eqn:E.
    + constructor; [now constructor|].
      constructor; [exact E|].
      eapply Forall_impl; [|exact Hall].
      intros z Hz. simpl in Hz. eapply before_trans; eauto.
    + constructor; [now apply IH|].
      apply Forall_forall. intros z Hz.
      apply (Permutation_in _ (insert_sorted_perm x l)) in Hz.
      destruct Hz as [<-|Hz].
      * destruct (before_total x y) as [H|H]; congruence.
      * rewrite Forall_forall in Hall. now apply Hall.
Qed.

Lemma stable_sort_sorted (l : list A) :
  StronglySorted (fun a b => before a b = true) (stable_sort before l).
Proof.
  induction l as [|x l IH]; simpl.
  - constructor.
  - now apply insert_sorted_sorted.
Qed.

End InsertionSortFacts.

Lemma tallied_tally (k x : string) (rows : list (string * nat)) :
  tallied k (tally x rows)
  = if String.eqb k x then S (tallied k rows) else tallied k rows.
Proof.
  induction rows as [|[y c] rows IH]; simpl.
  - destruct (String.eqb k x); reflexivity.
  - destruct (String.eqb_spec x y) as [->|Hxy]; simpl.
    + destruct (String.eqb k y); reflexivity.
    + rewrite IH. destruct (String.eqb_spec k y) as [->|Hky];
        [|reflexivity].
      destruct (String.eqb_spec y x) as [->|_]; congruence.
Qed.

Lemma tally_keys (k x : string) (rows : list (string * nat)) :
  In k (map fst (tally x rows)) <-> k = x \/ In k (map fst rows).
Proof.
  induction rows as [|[y c] rows IH]; simpl; [intuition|].
  destruct (String.eqb_spec x y) as [->|Hxy]; simpl; [intuition|].
  rewrite IH. intuition.
Qed.

Lemma tally_NoDup (x : string) (rows : list (string * nat)) :
  NoDup (map fst rows) -> NoDup (map fst (tally x rows)).
Proof.
  induction rows as [|[y c] rows IH]; simpl; intros Hnd.
  - constructor; [intros []|constructor].
  - inversion Hnd as [|? ? Hy Hrest]; subst.
    destruct (String.eqb_spec x y) as [->|Hxy]; simpl.
    + now constructor.
    + constructor; [|now apply IH].
      rewrite tally_keys. intros [E|Hin]; [congruence|contradiction].
Qed.

Lemma tally_total (x : string) (rows : list (string * nat)) :
  total_count (tally x rows) = S (total_count rows).
Proof.
  induction rows as [|[y c] rows IH]; simpl; [reflexivity|].
  destruct (String.eqb x y); simpl; [lia|]. rewrite IH. lia.
Qed.

(** The table after counting [values] into [rows]. *)
Lemma tally_fold (values : list string) (rows : list (string * nat)) :
  (forall k,
      tallied k (fold_left (fun acc x => tally x acc) values rows)
      = count_occ string_dec values k + tallied k rows)
  /\ (forall k,
        In k (map fst (fold_left (fun acc x => tally x acc) values rows))
        <-> In k values \/ In k (map fst rows))
  /\ (NoDup (map fst rows) ->
      NoDup (map fst (fold_left (fun acc x => tally x acc) values rows)))
  /\ total_count (fold_left (fun acc x => tally x acc) values rows)
     = List.length values + total_count rows.
Proof.
  revert rows. induction values as [|x values IH]; intros rows; simpl.
  - repeat split; auto; tauto.
  - destruct (IH (tally x rows)) as (Hc & Hk & Hn & Ht).
    split; [|split; [|split]].
    + intros k. rewrite Hc, tallied_tally.
      destruct (string_dec x k) as [->|Hne].
      * rewrite String.eqb_refl. lia.
      * destruct (String.eqb_spec k x); [congruence|reflexivity].
    + intros k. rewrite Hk, tally_keys. intuition.
    + intros Hnd. apply Hn. now apply tally_NoDup.
    + rewrite Ht, tally_total. lia.
Qed.

Lemma tallied_In (k : string) (c : nat) (rows : list (string * nat)) :
  NoDup (map fst rows) -> In (k, c) rows -> tallied k rows = c.
Proof.
  induction rows as [|[y c'] rows IH]; simpl; intros Hnd Hin; [tauto|].
  inversion Hnd as [|? ? Hy Hrest]; subst.
  destruct Hin as [[= -> ->]|Hin].
  - now rewrite String.eqb_refl.
  - destruct (String.eqb_spec k y) as [->|_]; [|now apply IH].
    exfalso. apply Hy. now apply (in_map fst _ (y, c)).
Qed.

Lemma total_count_perm {K : Type} (l1 l2 : list (K * nat)) :
  Permutation l1 l2 -> total_count l1 = total_count l2.
Proof.
  unfold total_count. induction 1; simpl; lia.
Qed.

Lemma count_ge_total a b : count_ge a b = true \/ count_ge b a = true.
Proof. unfold count_ge. rewrite !Nat.leb_le. lia. Qed.

Lemma count_ge_trans a b c :
  count_ge a b = true -> count_ge b c = true -> count_ge a c = true.
Proof. unfold count_ge. rewrite !Nat.leb_le. lia. Qed.

(** X10. [value_counts] gives one slice per distinct value of the column,
    none twice; the size of a slice is the number of rows with its value,
    which is at least 1; the slices are in descending order of size, and
    their sizes add up to the number of rows. *)
Theorem value_counts_spec :
  forall values : list string,
    NoDup (map fst (value_counts values))
    /\ (forall k, In k (map fst (value_counts values)) <-> In k values)
    /\ (forall k c,
          In (k, c) (value_counts values) ->
          c = count_occ string_dec values k /\ 0 < c)
    /\ StronglySorted (fun a b => snd b <= snd a) (value_counts values)
    /\ total_count (value_counts values) = List.length values.
Proof.
  intros values. unfold value_counts.
  destruct (tally_fold values []) as (Hc & Hk & Hn & Ht).
  fold (tally_all values) in Hc, Hk, Hn, Ht.
  pose proof (stable_sort_perm count_ge (tally_all values)) as Hperm.
  assert (Hnd : NoDup (map fst (tally_all values)))
    by (apply Hn; constructor).
  split; [|split; [|split; [|split]]].
  - eapply Permutation_NoDup; [|exact Hnd].
    apply Permutation_map. now symmetry.
  - intros k. split; intros H.
    + apply (Permutation_in _ (Permutation_map fst Hperm)) in H.
      apply Hk in H. destruct H as [H|[]]. exact H.
    + apply (Permutation_in _ (Permutation_map fst (Permutation_sym Hperm))).
      apply Hk. now left.
  - intros k c Hin.
    apply (Permutation_in _ Hperm) in Hin.
    assert (E : c = count_occ string_dec values k).
    { rewrite <- (tallied_In k c _ Hnd Hin), Hc. simpl. lia. }
    split; [exact E|]. subst c. apply count_occ_In.
    apply (in_map fst) in Hin. simpl in Hin.
    apply Hk in Hin. destruct Hin as [H|[]]. exact H.
  - eapply StronglySorted_impl;
      [|apply (stable_sort_sorted count_ge count_ge_total count_ge_trans)].
    intros a b. unfold count_ge. apply Nat.leb_le.
  - rewrite (total_count_perm _ _ Hperm), Ht. simpl. lia.
Qed.

(** The two pies of the full sample. *)
Example pies_sample :
  sentiment_counts load_data
  = [("positive", 5); ("negative", 4); ("neutral", 1)]
  /\ emotion_counts load_data
     = [("happy", 3); ("angry", 2); ("satisfied", 2); ("disappointed", 2);
        ("neutral", 1)].
Proof. split; reflexivity. Qed.

(* ------------------------------------------------------------------ *)
(** ** The dates of the sample and the trend chart *)

Lemma days_in_month_pos (y m : nat) : 1 <= Date.days_in_month y m.
Proof.
  unfold Date.days_in_month.
  destruct m as [|[|[|[|[|[|[|[|[|[|[|[|m]]]]]]]]]]]]; try lia.
  destruct (Date.is_leap y); lia.
Qed.

Lemma next_day_valid (d : Date.t) : valid_date d -> valid_date (Date.next_day d).
Proof.
  unfold valid_date, Date.next_day. intros [Hm Hd].
  destruct (Nat.ltb_spec (Date.day d)
              (Date.days_in_month (Date.year d) (Date.month d))).
  - cbn [Date.year Date.month Date.day]. lia.
  - destruct (Nat.ltb_spec (Date.month d) 12);
      cbn [Date.year Date.month Date.day].
    + pose proof (days_in_month_pos (Date.year d) (S (Date.month d))). lia.
    + pose proof (days_in_month_pos (S (Date.year d)) 1). lia.
Qed.

Lemma next_day_later (d : Date.t) : date_lt d (Date.next_day d).
Proof.
  apply date_lt_iff. unfold Date.next_day.
  destruct (Nat.ltb_spec (Date.day d)
              (Date.days_in_month (Date.year d) (Date.month d))).
  - simpl. lia.
  - destruct (Nat.ltb_spec (Date.month d) 12); simpl; lia.
Qed.

Lemma date_lt_trans (a b c : Date.t) : date_lt a b -> date_lt b c -> date_lt a c.
Proof. rewrite !date_lt_iff. lia. Qed.

Lemma date_range_after (start x : Date.t) (periods : nat) :
  In x (Date.date_range (Date.next_day start) periods) -> date_lt start x.
Proof.
  revert start. induction periods as [|n IH]; simpl; intros start Hin; [tauto|].
  destruct Hin as [<-|Hin].
  - apply next_day_later.
  - apply (date_lt_trans _ (Date.next_day start)).
    + apply next_day_later.
    + now apply IH.
Qed.

Lemma date_range_facts (start : Date.t) (periods : nat) :
  valid_date start ->
  List.length (Date.date_range start periods) = periods
  /\ Forall valid_date (Date.date_range start periods)
  /\ StronglySorted date_lt (Date.date_range start periods)
  /\ (0 < periods -> hd_error (Date.date_range start periods) = Some start).
Proof.
  revert start.
  induction periods as [|n IH]; intros start Hv; simpl.
  - repeat split; try constructor. lia.
  - destruct (IH (Date.next_day start) (next_day_valid _ Hv))
      as (Hlen & Hval & Hsort & _).
    split; [now rewrite Hlen|]. split; [now constructor|].
    split; [|reflexivity].
    constructor; [exact Hsort|].
    apply Forall_forall. intros x. apply date_range_after.
Qed.

(** X11. [date_range] from a date of the calendar gives that many dates of
    the calendar, the first one the start, each later than the one before:
    no two rows of the sample share a date. *)
Theorem date_range_ascending :
  forall (start : Date.t) (periods : nat),
    valid_date start ->
    List.length (Date.date_range start periods) = periods
    /\ Forall valid_date (Date.date_range start periods)
    /\ StronglySorted date_lt (Date.date_range start periods)
    /\ (0 < periods -> hd_error (Date.date_range start periods) = Some start).
Proof. exact date_range_facts. Qed.

Lemma date_range_ascending_witness :
  valid_date (Date.mk 2024 6 1)
  /\ (List.length (Date.date_range (Date.mk 2024 6 1) 10) = 10
      /\ Forall valid_date (Date.date_range (Date.mk 2024 6 1) 10)
      /\ StronglySorted date_lt (Date.date_range (Date.mk 2024 6 1) 10)
      /\ (0 < 10 ->
          hd_error (Date.date_range (Date.mk 2024 6 1) 10)
          = Some (Date.mk 2024 6 1))).
Proof.
  assert (Hv : valid_date (Date.mk 2024 6 1))
    by (unfold valid_date; simpl; lia).
  split; [exact Hv|].
  apply (date_range_ascending (Date.mk 2024 6 1) 10 Hv).
Defined.

Lemma StronglySorted_Subseq {A : Type} (R : A -> A -> Prop) (l1 l2 : list A) :
  Subseq l1 l2 -> StronglySorted R l2 -> StronglySorted R l1.
Proof.
  induction 1 as [|x l1 l2 Hsub IH|x l1 l2 Hsub IH]; intros Hs.
  - constructor.
  - apply StronglySorted_inv in Hs. destruct Hs as [Hs Hall].
    constructor; [now apply IH|].
    rewrite Forall_forall in *. intros y Hy. apply Hall.
    eapply Subseq_In_elem; eauto.
  - apply StronglySorted_inv in Hs. now apply IH.
Qed.

Lemma Subseq_map {A B : Type} (f : A -> B) (l1 l2 : list A) :
  Subseq l1 l2 -> Subseq (map f l1) (map f l2).
Proof. induction 1; simpl; now constructor. Qed.

Lemma daily_sentiment_ascending (df : DataFrame) :
  StronglySorted date_lt (map date df) ->
  daily_sentiment df = map (fun r => ((date r, sentiment r), 1)) df.
Proof.
  unfold daily_sentiment.
  induction df as [|r df IH]; simpl; intros Hs; [reflexivity|].
  apply StronglySorted_inv in Hs. destruct Hs as [Hs Hall].
  rewrite (IH Hs). destruct df as [|r' df]; [reflexivity|].
  simpl. inversion Hall as [|? ? Hlt _]; subst.
  unfold date_sentiment_compare, lex_compare at 1. simpl.
  unfold date_lt in Hlt. now rewrite Hlt.
Qed.

Lemma load_data_dates_ascending :
  StronglySorted date_lt (map date load_data).
Proof.
  change (map date load_data) with (Date.date_range (Date.mk 2024 6 1) 10).
  apply date_range_facts. unfold valid_date; simpl; lia.
Qed.

Lemma views_dates_ascending (date_range : list Date.t)
    (sources products : list string) :
  StronglySorted date_lt
    (map date (df_filtered load_data date_range sources products)).
Proof.
  apply (StronglySorted_Subseq _ _ (map date load_data)).
  - apply Subseq_map, df_filtered_Subseq.
  - exact load_data_dates_ascending.
Qed.

(** X12. On a frame whose dates ascend strictly, such as the sample and
    each of its views, the trend table has one row per record, in the
    order of the frame, each with count 1. *)
Theorem trend_of_distinct_dates :
  forall df : DataFrame,
    StronglySorted date_lt (map date df) ->
    daily_sentiment df = map (fun r => ((date r, sentiment r), 1)) df.
Proof. exact daily_sentiment_ascending. Qed.

Lemma trend_of_distinct_dates_witness :
  StronglySorted date_lt
    (map date (df_filtered load_data [] ["Reddit"] ["DBS app"; "DBS loan"]))
  /\ daily_sentiment (df_filtered load_data [] ["Reddit"] ["DBS app"; "DBS loan"])
     = map (fun r => ((date r, sentiment r), 1))
         (df_filtered load_data [] ["Reddit"] ["DBS app"; "DBS loan"]).
Proof.
  split; [apply views_dates_ascending|].
  apply (trend_of_distinct_dates
           (df_filtered load_data [] ["Reddit"] ["DBS app"; "DBS loan"])).
  apply views_dates_ascending.
Defined.

(* ------------------------------------------------------------------ *)
(** ** The charts and the cards agree *)

Section GroupByTotals.

Context {K : Type} (cmp : K -> K -> comparison) {O : CmpOrder cmp}.

Variable P : K -> bool.

Lemma bump_total_where (k : K) (rows : list (K * nat)) :
  total_count (filter (fun row => P (fst row)) (bump cmp k rows))
  = (if P k then 1 else 0)
    + total_count (filter (fun row => P (fst row)) rows).
Proof.
  induction rows as [|[k' c] rows IH]; simpl.
  - destruct (P k); simpl; lia.
  - destruct (cmp k k') eqn:E; simpl.
    + apply cmp_eq_iff in E. subst k'. destruct (P k); simpl; lia.
    + destruct (P k); destruct (P k'); simpl; lia.
    + destruct (P k'); simpl; rewrite IH; lia.
Qed.

(** The counts of the rows whose key satisfies [P] add up to the number of
    keys that satisfy [P]. *)
Lemma groupby_size_total_where (keys : list K) :
  total_count (filter (fun row => P (fst row)) (groupby_size cmp keys))
  = List.length (filter P keys).
Proof.
  induction keys as [|k keys IH]; simpl; [reflexivity|].
  rewrite bump_total_where, IH. destruct (P k); simpl; lia.
Qed.

End GroupByTotals.

Lemma filter_map_length {A B : Type} (f : A -> B) (P : B -> bool) (l : list A) :
  List.length (filter P (map f l))
  = List.length (filter (fun x => P (f x)) l).
Proof.
  induction l as [|x l IH]; simpl; [reflexivity|].
  destruct (P (f x)); simpl; now rewrite IH.
Qed.

(** X13. The charts agree with the cards.  In the trend table and in the
    product table the counts of the rows of one sentiment add up to the
    count on the card of that sentiment, and the bars of one search term
    add up to the number of records of the view with that term. *)
Theorem chart_totals_match_cards :
  forall df : DataFrame,
    (forall s,
        total_count
          (filter (fun row => String.eqb (snd (fst row)) s) (daily_sentiment df))
        = List.length (filter (sentiment_is s) df))
    /\ (forall s,
          total_count
            (filter (fun row => String.eqb (snd (fst row)) s)
               (product_sentiment df))
          = List.length (filter (sentiment_is s) df))
    /\ (forall t,
          total_count
            (filter (fun row => String.eqb (fst (fst row)) t)
               (product_sentiment df))
          = List.length (filter (fun r => String.eqb (search_term r) t) df))
    /\ total_count
         (filter (fun row => String.eqb (snd (fst row)) "positive")
            (product_sentiment df))
       = positive_count df.
Proof.
  intros df.
  assert (Hp : forall s,
             total_count
               (filter (fun row => String.eqb (snd (fst row)) s)
                  (product_sentiment df))
             = List.length (filter (sentiment_is s) df)).
  { intros s. unfold product_sentiment.
    rewrite (groupby_size_total_where term_sentiment_compare
               (fun k => String.eqb (snd k) s)).
    now rewrite filter_map_length. }
  split; [|split; [exact Hp|split; [|apply Hp]]].
  - intros s. unfold daily_sentiment.
    rewrite (groupby_size_total_where date_sentiment_compare
               (fun k => String.eqb (snd k) s)).
    now rewrite filter_map_length.
  - intros t. unfold product_sentiment.
    rewrite (groupby_size_total_where term_sentiment_compare
               (fun k => String.eqb (fst k) t)).
    now rewrite filter_map_length.
Qed.

(* ------------------------------------------------------------------ *)
(** ** The top posts *)

Lemma sort_rows_head (before : MentionRecord -> MentionRecord -> bool)
    (l : DataFrame) (r0 : MentionRecord) (rest : DataFrame) :
  (forall a b, before a b = true \/ before b a = true) ->
  (forall a b c, before a b = true -> before b c = true -> before a c = true) ->
  sort_rows before l = r0 :: rest ->
  In r0 l /\ forall r, In r l -> before r0 r = true.
Proof.
  intros Htot Htrans E.
  pose proof (sort_rows_perm before l) as Hperm.
  pose proof (sort_rows_sorted before Htot Htrans l) as Hs.
  unfold sorted_by in Hs. rewrite E in Hs, Hperm.
  apply StronglySorted_inv in Hs. destruct Hs as [_ Hall].
  split.
  - apply (Permutation_in _ Hperm). now left.
  - intros r Hr. apply (Permutation_in _ (Permutation_sym Hperm)) in Hr.
    destruct Hr as [<-|Hr].
    + destruct (Htot r0 r0); assumption.
    + rewrite Forall_forall in Hall. now apply Hall.
Qed.

Lemma sort_rows_nil (before : MentionRecord -> MentionRecord -> bool)
    (l : DataFrame) :
  sort_rows before l = [] -> l = [].
Proof.
  intros E. pose proof (sort_rows_perm before l) as Hperm.
  rewrite E in Hperm. now apply Permutation_nil in Hperm.
Qed.


(* ------------------------------------------------------------------ *)
(** ** The export determines the table *)



(* ------------------------------------------------------------------ *)
(** ** The page *)

Lemma page_of_value (view : DataFrame) :
  page_of view
  = Some (mkPage (total_mentions view)
            [ ("positive",
               (positive_count view,
                if 0 <? total_mentions view
                then share (positive_count view) (total_mentions view)
                else 0%Q));
              ("negative",
               (negative_count view,
                if 0 <? total_mentions view
                then share (negative_count view) (total_mentions view)
                else 0%Q));
              ("neutral",
               (neutral_count view,
                if 0 <? total_mentions view
                then share (neutral_count view) (total_mentions view)
                else 0%Q)) ]
            (unless_empty view (sentiment_counts view))
            (unless_empty view (emotion_counts view))
            (unless_empty view (daily_sentiment view))
            (unless_empty view (product_sentiment view))
            (positive_posts view) (negative_posts view)
            (unless_empty view (all_text view))).
Proof.
  unfold page_of, count_by_sentiment, positive_pct, negative_pct, neutral_pct.
  rewrite !percentage_value. reflexivity.
Qed.


(** X17. With no source selected, with no search term selected, or with a
    date range that ends before it starts, the page is the empty one. *)
Theorem empty_selection_empty_page :
  forall (date_range : list Date.t) (sources products : list string),
    sources = [] \/ products = []
    \/ (exists d0 d1, date_range = [d0; d1] /\ date_lt d1 d0) ->
    main date_range sources products = Some no_data_page.
Proof.
  intros date_range sources products H. unfold main.
  assert (E : df_filtered load_data date_range sources products = []).
  { destruct H as [->|[->|(d0 & d1 & -> & Hlt)]].
    - destruct (df_filtered_cases load_data date_range [] products)
        as [(d0 & d1 & _ & ->)|(_ & ->)];
        apply filter_all_false; intros r; apply not_true_is_false;
        [rewrite mask_dated_iff|rewrite mask_undated_iff]; simpl; tauto.
    - destruct (df_filtered_cases load_data date_range sources [])
        as [(d0 & d1 & _ & ->)|(_ & ->)];
        apply filter_all_false; intros r; apply not_true_is_false;
        [rewrite mask_dated_iff|rewrite mask_undated_iff]; simpl; tauto.
    - cbn [df_filtered]. apply filter_all_false. intros r.
      apply not_true_is_false. rewrite mask_dated_iff. intros [[H0 H1] _].
      apply (date_lt_not_le _ _ Hlt). now apply (date_le_trans _ (date r)). }
  rewrite E. reflexivity.
Qed.

Lemma empty_selection_empty_page_witness :
  ((@nil string) = [] \/ ["DBS app"] = []
   \/ (exists d0 d1, [Date.mk 2024 6 1] = [d0; d1] /\ date_lt d1 d0))
  /\ main [Date.mk 2024 6 1] [] ["DBS app"] = Some no_data_page.
Proof.
  split; [now left|].
  apply (empty_selection_empty_page [Date.mk 2024 6 1] [] ["DBS app"]).
  now left.
Defined.

(* ------------------------------------------------------------------ *)
(** ** The text of the word cloud *)

Lemma length_append (a b : string) :
  String.length (a ++ b) = String.length a + String.length b.
Proof. induction a as [|c a IH]; simpl; [reflexivity|now rewrite IH]. Qed.

(** X18. The text handed to the word cloud holds the text of every record
    of the view, in the order of the view, with one space between two
    texts: its length is the sum of the lengths of the texts plus the
    number of gaps. *)
Theorem all_text_holds_every_text :
  forall df : DataFrame,
    (forall r, In r df ->
       exists pre post, all_text df = (pre ++ text r ++ post)%string)
    /\ String.length (all_text df)
       = fold_right (fun r acc => String.length (text r) + acc) 0 df
         + (List.length df - 1).
Proof.
  unfold all_text. induction df as [|r df [IHin IHlen]].
  - split; [intros r []|reflexivity].
  - destruct df as [|r' df].
    + split.
      * intros x [<-|[]]. exists EmptyString, EmptyString.
        simpl. now rewrite append_nil_r.
      * simpl. lia.
    + change (String.concat " " (map text (r :: r' :: df)))
        with (text r ++ " " ++ String.concat " " (map text (r' :: df)))%string.
      split.
      * intros x [<-|Hx].
        -- exists EmptyString. eexists. reflexivity.
        -- destruct (IHin x Hx) as (pre & post & E). rewrite E.
           exists (text r ++ " " ++ pre)%string, post.
           now rewrite !append_assoc.
      * rewrite !length_append, IHlen. cbn [fold_right List.length].
        change (String.length " ") with 1. lia.
Qed.

(* ------------------------------------------------------------------ *)
(** ** Building the frame *)

(** X19. A frame built from eight columns of one length has that many rows,
    and reading a column of the frame gives the column it was built from. *)
Theorem frame_of_columns_keeps_columns :
  forall (c_text c_sentiment c_emotion c_source c_platform c_term : list string)
         (c_polarity : list Q) (c_date : list Date.t),
    List.length c_sentiment = List.length c_text ->
    List.length c_emotion = List.length c_text ->
    List.length c_source = List.length c_text ->
    List.length c_platform = List.length c_text ->
    List.length c_term = List.length c_text ->
    List.length c_polarity = List.length c_text ->
    List.length c_date = List.length c_text ->
    List.length (frame_of_columns c_text c_sentiment c_emotion c_source
                   c_platform c_term c_polarity c_date)
    = List.length c_text
    /\ map text (frame_of_columns c_text c_sentiment c_emotion c_source
                   c_platform c_term c_polarity c_date) = c_text
    /\ map sentiment (frame_of_columns c_text c_sentiment c_emotion c_source
                        c_platform c_term c_polarity c_date) = c_sentiment
    /\ map emotion (frame_of_columns c_text c_sentiment c_emotion c_source
                      c_platform c_term c_polarity c_date) = c_emotion
    /\ map source (frame_of_columns c_text c_sentiment c_emotion c_source
                     c_platform c_term c_polarity c_date) = c_source
    /\ map platform (frame_of_columns c_text c_sentiment c_emotion c_source
                       c_platform c_term c_polarity c_date) = c_platform
    /\ map search_term (frame_of_columns c_text c_sentiment c_emotion c_source
                          c_platform c_term c_polarity c_date) = c_term
    /\ map polarity (frame_of_columns c_text c_sentiment c_emotion c_source
                       c_platform c_term c_polarity c_date) = c_polarity
    /\ map date (frame_of_columns c_text c_sentiment c_emotion c_source
                   c_platform c_term c_polarity c_date) = c_date.
Proof.
  induction c_text as [|t ts IH];
    intros [|s ss] [|e es] [|o os] [|p ps] [|k ks] [|q qs] [|d ds];
    simpl; intros H1 H2 H3 H4 H5 H6 H7; try discriminate.
  - repeat split.
  - destruct (IH ss es os ps ks qs ds) as (L & T & S & E & O & P & K & Q' & D);
      try congruence.
    rewrite L, T, S, E, O, P, K, Q', D. repeat split.
Qed.

Lemma frame_of_columns_keeps_columns_witness :
  List.length sample_data.sentiment = List.length sample_data.text
  /\ List.length sample_data.emotion = List.length sample_data.text
  /\ List.length sample_data.source = List.length sample_data.text
  /\ List.length sample_data.platform = List.length sample_data.text
  /\ List.length sample_data.search_term = List.length sample_data.text
  /\ List.length sample_data.polarity = List.length sample_data.text
  /\ List.length sample_data.date = List.length sample_data.text
  /\ List.length load_data = List.length sample_data.text
  /\ map polarity load_data = sample_data.polarity.
Proof.
  do 7 (split; [reflexivity|]).
  destruct (frame_of_columns_keeps_columns
              sample_data.text sample_data.sentiment sample_data.emotion
              sample_data.source sample_data.platform sample_data.search_term
              sample_data.polarity sample_data.date
              eq_refl eq_refl eq_refl eq_refl eq_refl eq_refl eq_refl)
    as (L & _ & _ & _ & _ & _ & _ & Q' & _).
  split; [exact L|exact Q'].
Defined.

(* ------------------------------------------------------------------ *)
(** ** Date labels and the file name *)

Lemma pad4_inj (a b : nat) :
  a < 100 * 100 -> b < 100 * 100 -> Csv.pad4 a = Csv.pad4 b -> a = b.
Proof.
  intros Ha Hb E. apply (f_equal (Csv.number_of 0)) in E.
  rewrite !number_of_pad4 in E by assumption. congruence.
Qed.

Lemma pad2_inj (a b : nat) :
  a < 100 -> b < 100 -> Csv.pad2 a = Csv.pad2 b -> a = b.
Proof.
  intros Ha Hb E. apply (f_equal (Csv.number_of 0)) in E.
  rewrite !number_of_pad2 in E by assumption. congruence.
Qed.

(** A date of the calendar has a month and a day of at most two digits. *)
Lemma valid_date_bounds (d : Date.t) :
  valid_date d -> Date.month d < 100 /\ Date.day d < 100.
Proof.
  unfold valid_date, Date.days_in_month. intros [Hm Hd].
  split; [lia|].
  destruct (Date.month d) as [|[|[|[|[|[|[|[|[|[|[|[|m]]]]]]]]]]]];
    try lia.
  destruct (Date.is_leap (Date.year d)); lia.
Qed.



(** The label and the file name of the first day of the sample. *)
Example labels_sample :
  Csv.isoformat (Date.mk 2024 6 1) = "2024-06-01"
  /\ file_name (Date.mk 2024 6 1) = "dbs_sentiment_data_20240601.csv".
Proof. split; reflexivity. Qed.
